(** * The Stockholm reader of scikit-bio (skbio/io/format/stockholm.py)

    A shallow embedding of the sniffer, the line classifier, the five line
    parsers and the two-pass reader, followed by the properties of the
    format description that were checked against them.

    Conventions of the embedding:
    - a Python text string is a [string]; an [ascii] stands for a code point
      below 256;
    - the stream [fh] is the list of its lines, in file order; iterating
      the handle twice (with [fh.seek(0)] in between) walks the same list
      twice;
    - a plain [dict] is a [gmap]; the [OrderedDict] [dna_data] is an
      association list, because its key order is observable;
    - a raised exception is the [Raise] branch of [result]. *)

From Stdlib Require Import Ascii String.
From stdpp Require Import gmap strings list fin_maps.

(** ** The Python built-ins used by the module *)

Module Py.

(** [str.isspace] and [str.split()] use the Unicode white space
    predicate; these are its members below code point 256. *)
Definition isspace_char (c : ascii) : bool :=
  match c with
  | "009" | "010" | "011" | "012" | "013"
  | "028" | "029" | "030" | "031" | " " | "133" | "160" => true
  | _ => false
  end%char.

(** [s.isspace()]: at least one character, all of them white space. *)
Fixpoint all_space (s : string) : bool :=
  match s with
  | EmptyString => true
  | String c s' => isspace_char c && all_space s'
  end.

Definition isspace (s : string) : bool :=
  match s with
  | EmptyString => false
  | _ => all_space s
  end.

(** [s.startswith(p)] *)
Definition startswith (s p : string) : bool := String.prefix p s.

(** [s.split()]: the maximal runs of characters that are not white
    space, in order; never an empty field. *)
Fixpoint split (s : string) : list string :=
  match s with
  | EmptyString => []
  | String c s' =>
      if isspace_char c then split s'
      else match s' with
           | EmptyString => [String c EmptyString]
           | String c' _ =>
               if isspace_char c' then String c EmptyString :: split s'
               else match split s' with
                    | t :: ts => String c t :: ts
                    | [] => [String c EmptyString]
                    end
           end
  end.

(** [s.split(sep, maxsplit)] for a one-character separator: cut at the
    first [maxsplit] occurrences of [sep]; fields may be empty, and the
    result always has at least one field. *)
Fixpoint split_sep (sep : ascii) (maxsplit : nat) (s : string)
  : list string :=
  match s with
  | EmptyString => [EmptyString]
  | String c s' =>
      match maxsplit with
      | S n =>
          if Ascii.eqb c sep then EmptyString :: split_sep sep n s'
          else match split_sep sep maxsplit s' with
               | t :: ts => String c t :: ts
               | [] => [String c EmptyString]
               end
      | O => [s]
      end
  end.

(** [c in s] for a one-character [c]. *)
Fixpoint contains (c : ascii) (s : string) : bool :=
  match s with
  | EmptyString => false
  | String a s' => Ascii.eqb a c || contains c s'
  end.

(** [s.rstrip(c)] for a one-character [c]. *)
Fixpoint rstrip (c : ascii) (s : string) : string :=
  match s with
  | EmptyString => EmptyString
  | String a s' =>
      match rstrip c s' with
      | EmptyString => if Ascii.eqb a c then EmptyString
                       else String a EmptyString
      | r => String a r
      end
  end.

(** [list(s)]: the characters of [s], one by one. *)
Definition list_of_str (s : string) : list ascii := list_ascii_of_string s.

(** [s[:n]] *)
Definition slice_to (n : nat) (s : string) : string := String.substring 0 n s.

End Py.

(** ** Exceptions *)

(** The messages of the [StockholmFormatError]s the module raises; a [%r]
    argument is carried as the string it renders. *)
Inductive StockholmFormatError_msg : Type :=
  | No_data_present
      (* "No data present in file." *)
  | Nonexistent_data (data_seq_name : string)
      (* "Markup line references nonexistent data %r." *)
  | Duplicate_GR_label (gr_feature data_seq_name : string)
      (* "Found duplicate GR label %r associated with data label %r" *)
  | Duplicate_GC_label (gc_feature : string)
      (* "Found duplicate GC label %r." *)
  | Multiple_data_lines (data_seq_name : string).
      (* "Found multiple data lines under same name: %r" *)

Inductive exn : Type :=
  | StockholmFormatError (msg : StockholmFormatError_msg)
  | IndexError
      (* a list subscript out of range *)
  | KeyError (key : string)
      (* a dict subscript with an absent key *)
  | CollaboratorError (description : string).
      (* whatever the sequence constructor or TabularMSA raises *)

Inductive result (A : Type) : Type :=
  | Ok (a : A)
  | Raise (e : exn).
Arguments Ok {A} a.
Arguments Raise {A} e.

(** Sequencing: the first exception raised ends the computation. *)
Global Instance result_bind : MBind result := λ A B k m,
  match m with
  | Ok a => k a
  | Raise e => Raise e
  end.

(** [line[i]] on a list of fields *)
Definition subscript {A : Type} (l : list A) (i : nat) : result A :=
  match l !! i with
  | Some a => Ok a
  | None => Raise IndexError
  end.

(** ** Data model *)

(** [_SeqData = namedtuple("SeqData", ["seq", "metadata", "pos_metadata"])] *)
Record SeqData : Type := mkSeqData {
  seq : string;
  metadata : gmap string string;
  pos_metadata : gmap string (list ascii)
}.

(** [dna_data]: label to record, in insertion order, keys distinct. *)
Abbreviation OrderedDict := (list (string * SeqData)).

Definition od_keys (d : OrderedDict) : list string := d.*1.

Fixpoint od_get (k : string) (d : OrderedDict) : option SeqData :=
  match d with
  | [] => None
  | (k', v) :: d' => if decide (k' = k) then Some v else od_get k d'
  end.

(** [d[k]] *)
Definition od_getitem (k : string) (d : OrderedDict) : result SeqData :=
  match od_get k d with
  | Some v => Ok v
  | None => Raise (KeyError k)
  end.

(** [k in d.keys()] *)
Definition od_mem (k : string) (d : OrderedDict) : bool :=
  bool_decide (is_Some (od_get k d)).

(** [d[k] = v]: a present key keeps its place, a new key goes last. *)
Fixpoint od_set (k : string) (v : SeqData) (d : OrderedDict) : OrderedDict :=
  match d with
  | [] => [(k, v)]
  | (k', v') :: d' =>
      if decide (k' = k) then (k', v) :: d' else (k', v') :: od_set k v d'
  end.

(** [not m] for a dict [m] *)
Definition falsy {V : Type} (m : gmap string V) : bool :=
  bool_decide (m = ∅).

(** ** The module *)

Definition signature : string := "# STOCKHOLM 1.0".

(** [_stockholm_sniffer]: the answer (the keyword dict is always [{}]) and
    what is left of the stream after the call. *)
Definition _stockholm_sniffer (fh : list string) : bool * list string :=
  match fh with
  | [] => (false, [])
  | line :: rest =>
      if decide (Py.slice_to 15 line = signature) then (true, rest)
      else (false, rest)
  end.

Definition is_data_line (line : string) : bool :=
  negb (Py.startswith line "#" || Py.startswith line "//"
        || Py.isspace line).

(** [len(line) - 1] is [-1] on the empty list, and [line[-1]] raises
    IndexError there too, as [subscript [] 0] does. *)
Definition _remove_newline (line : list string) : result (list string) :=
  n_line ← subscript line (length line - 1);
  if Py.contains "010" n_line
  then Ok (<[length line - 1 := Py.rstrip "010" n_line]> line)
  else Ok line.

Definition _parse_stockholm_line_gf (line : string)
    (metadata : gmap string string) : result (gmap string string) :=
  line ← _remove_newline (Py.split_sep " " 2 line);
  gf_feature ← subscript line 1;
  gf_feature_data ← subscript line 2;
  match metadata !! gf_feature with
  | Some old => Ok (<[gf_feature := old +:+ " " +:+ gf_feature_data]> metadata)
  | None => Ok (<[gf_feature := gf_feature_data]> metadata)
  end.

Definition _parse_stockholm_line_gs (line : string) (dna_data : OrderedDict)
  : result OrderedDict :=
  line ← _remove_newline (Py.split_sep " " 3 line);
  data_seq_name ← subscript line 1;
  gs_feature ← subscript line 2;
  match od_get data_seq_name dna_data with
  | Some r =>
      if falsy (metadata r)
      then
        v ← subscript line 3;
        Ok (od_set data_seq_name
              (mkSeqData (seq r) (<[gs_feature := v]> (metadata r))
                 (pos_metadata r))
              dna_data)
      else Ok dna_data
  | None => Raise (StockholmFormatError (Nonexistent_data data_seq_name))
  end.

Definition _parse_stockholm_line_gr (line : string) (dna_data : OrderedDict)
  : result OrderedDict :=
  line ← _remove_newline (Py.split line);
  data_seq_name ← subscript line 1;
  gr_feature ← subscript line 2;
  match od_get data_seq_name dna_data with
  | Some r =>
      match pos_metadata r !! gr_feature with
      | Some _ =>
          Raise (StockholmFormatError
                   (Duplicate_GR_label gr_feature data_seq_name))
      | None =>
          v ← subscript line 3;
          Ok (od_set data_seq_name
                (mkSeqData (seq r) (metadata r)
                   (<[gr_feature := Py.list_of_str v]> (pos_metadata r)))
                dna_data)
      end
  | None => Raise (StockholmFormatError (Nonexistent_data data_seq_name))
  end.

Definition _parse_stockholm_line_gc (line : string)
    (positional_metadata : gmap string (list ascii))
  : result (gmap string (list ascii)) :=
  line ← _remove_newline (Py.split line);
  gc_feature ← subscript line 1;
  match positional_metadata !! gc_feature with
  | Some _ => Raise (StockholmFormatError (Duplicate_GC_label gc_feature))
  | None =>
      v ← subscript line 2;
      Ok (<[gc_feature := Py.list_of_str v]> positional_metadata)
  end.

Definition _parse_stockholm_line_data (line : string) (dna_data : OrderedDict)
  : result OrderedDict :=
  let line := Py.split line in
  data_seq_name ← subscript line 0;
  if negb (od_mem data_seq_name dna_data)
  then
    s ← subscript line 1;
    Ok (od_set data_seq_name (mkSeqData s ∅ ∅) dna_data)
  else Raise (StockholmFormatError (Multiple_data_lines data_seq_name)).

(** ** The reader *)

(** The locals of [_stockholm_to_tabular_msa] that the markup pass
    updates. *)
Record locals : Type := mkLocals {
  l_metadata : gmap string string;
  l_dna_data : OrderedDict;
  l_positional_metadata : gmap string (list ascii)
}.

(** First loop: [for line in fh: if is_data_line(line): ...] *)
Fixpoint data_pass (fh : list string) (dna_data : OrderedDict)
  : result OrderedDict :=
  match fh with
  | [] => Ok dna_data
  | line :: fh' =>
      dna_data ← (if is_data_line line
                  then _parse_stockholm_line_data line dna_data
                  else Ok dna_data);
      data_pass fh' dna_data
  end.

(** The body of the second loop. *)
Definition markup_line (line : string) (st : locals) : result locals :=
  if Py.startswith line "#=GF" then
    m ← _parse_stockholm_line_gf line (l_metadata st);
    Ok (mkLocals m (l_dna_data st) (l_positional_metadata st))
  else if Py.startswith line "#=GS" then
    d ← _parse_stockholm_line_gs line (l_dna_data st);
    Ok (mkLocals (l_metadata st) d (l_positional_metadata st))
  else if Py.startswith line "#=GR" then
    d ← _parse_stockholm_line_gr line (l_dna_data st);
    Ok (mkLocals (l_metadata st) d (l_positional_metadata st))
  else if Py.startswith line "#=GC" then
    p ← _parse_stockholm_line_gc line (l_positional_metadata st);
    Ok (mkLocals (l_metadata st) (l_dna_data st) p)
  else Ok st.

Fixpoint markup_pass (fh : list string) (st : locals) : result locals :=
  match fh with
  | [] => Ok st
  | line :: fh' => st ← markup_line line st; markup_pass fh' st
  end.

(** "Sets blank dictionaries and lists to None instead" *)
Definition none_if_falsy {V : Type} (m : gmap string V)
  : option (gmap string V) :=
  if falsy m then None else Some m.

(** The arguments of the final [TabularMSA(...)] call. *)
Record msa_args (Seq : Type) : Type := mkArgs {
  a_seqs : list Seq;
  a_metadata : gmap string string;
  a_positional_metadata : option (gmap string (list ascii));
  a_index : list string
}.
Arguments mkArgs {Seq} _ _ _ _.
Arguments a_seqs {Seq} _.
Arguments a_metadata {Seq} _.
Arguments a_positional_metadata {Seq} _.
Arguments a_index {Seq} _.

(** What a collaborator outside this module returns: a value, or the
    description of the exception it raised. *)
Definition call {A : Type} (r : string + A) : result A :=
  match r with
  | inl e => Raise (CollaboratorError e)
  | inr a => Ok a
  end.

Section Reader.

(** The sequence type, its constructor (the [constructor] argument,
    [Protein] by default) and the alignment class are not part of the
    module. *)
Context {Seq MSA : Type}.
Variable constructor :
  string → option (gmap string string) → option (gmap string (list ascii))
  → string + Seq.
Variable TabularMSA : msa_args Seq → string + MSA.

(** Third loop: [for key in dna_data.keys(): ...]. The record written
    back under [key] differs from the one read only in blank dicts
    turned to None, and is not read again. *)
Fixpoint assemble (keys : list string) (dna_data : OrderedDict)
  : result (list Seq) :=
  match keys with
  | [] => Ok []
  | key :: keys' =>
      r ← od_getitem key dna_data;
      s ← call (constructor (seq r) (none_if_falsy (metadata r))
                  (none_if_falsy (pos_metadata r)));
      seqs ← assemble keys' dna_data;
      Ok (s :: seqs)
  end.

(** Everything up to the [TabularMSA(...)] call. *)
Definition collect (fh : list string) : result (msa_args Seq) :=
  dna_data ← data_pass fh [];
  st ← markup_pass fh (mkLocals ∅ dna_data ∅);
  seqs ← assemble (od_keys (l_dna_data st)) (l_dna_data st);
  match seqs with
  | [] => Raise (StockholmFormatError No_data_present)
  | _ =>
      Ok (mkArgs seqs (l_metadata st)
            (none_if_falsy (l_positional_metadata st))
            (od_keys (l_dna_data st)))
  end.

Definition _stockholm_to_tabular_msa (fh : list string) : result MSA :=
  args ← collect fh;
  call (TabularMSA args).

End Reader.

(** ** Reference notions used in the statements *)

(** The label and the sequence token of a data line: its first two
    white-space-delimited fields. *)
Definition label (line : string) : string := default EmptyString (Py.split line !! 0).
Definition token (line : string) : string := default EmptyString (Py.split line !! 1).

(** The data lines of a stream, and their labels, in file order. *)
Definition data_lines (fh : list string) : list string :=
  List.filter is_data_line fh.
Definition data_labels (fh : list string) : list string :=
  label <$> data_lines fh.

(** Order of first appearance: every later repetition is dropped. *)
Fixpoint first_seen (l : list string) : list string :=
  match l with
  | [] => []
  | x :: l' => x :: List.filter (λ y, negb (String.eqb x y)) (first_seen l')
  end.

(** Collaborators that accept everything and return their arguments; used
    to run the reader on concrete streams. *)
Definition plain_Seq : Type :=
  string * option (gmap string string) * option (gmap string (list ascii)).
Definition plain_constructor (s : string) (m : option (gmap string string))
    (p : option (gmap string (list ascii))) : string + plain_Seq :=
  inr (s, m, p).
Definition plain_TabularMSA (a : msa_args plain_Seq)
  : string + msa_args plain_Seq := inr a.

(** The feature key of a GF line; no key for any other line. *)
Definition gf_key (line : string) : option string :=
  if Py.startswith line "#=GF" then
    match _remove_newline (Py.split_sep " " 2 line) with
    | Ok fields => fields !! 1
    | Raise _ => None
    end
  else None.

(** The record the first pass makes of a data line. *)
Definition record_of (line : string) : string * SeqData :=
  (label line, mkSeqData (token line) ∅ ∅).

(** The labels and sequences of a dictionary, without the metadata. *)
Definition skeleton (d : OrderedDict) : list (string * string) :=
  (λ kv, (kv.1, seq kv.2)) <$> d.

(** [m] raises no exception outside [P]. *)
Definition raises_only {A} (P : exn → Prop) (m : result A) : Prop :=
  ∀ e, m = Raise e → P e.

Definition other_than_no_data (e : exn) : Prop :=
  e ≠ StockholmFormatError No_data_present.

Definition other_than_nonexistent (e : exn) : Prop :=
  ∀ n, e ≠ StockholmFormatError (Nonexistent_data n).

(** The lines the second loop hands to one of the four parsers. *)
Definition is_markup_line (line : string) : bool :=
  Py.startswith line "#=GF" || Py.startswith line "#=GS"
  || Py.startswith line "#=GR" || Py.startswith line "#=GC".

Definition markup_lines (fh : list string) : list string :=
  List.filter is_markup_line fh.

(** [n] line feeds in a row. *)
Fixpoint newlines (n : nat) : string :=
  match n with
  | O => EmptyString
  | S n' => String "010" (newlines n')
  end.

(** A line has the fields its parser subscripts: two for a data line,
    three for GF and GC, four for GS and GR (cut as the parser of the
    line cuts it). *)
Definition enough_fields (line : string) : bool :=
  if is_data_line line then 2 <=? length (Py.split line)
  else if Py.startswith line "#=GF" then
    3 <=? length (Py.split_sep " " 2 line)
  else if Py.startswith line "#=GS" then
    4 <=? length (Py.split_sep " " 3 line)
  else if Py.startswith line "#=GR" then 4 <=? length (Py.split line)
  else if Py.startswith line "#=GC" then 3 <=? length (Py.split line)
  else true.

(** The exceptions with a message for the user: the parse errors of the
    module and what a collaborator raises. *)
Definition parse_or_collaborator_error (e : exn) : Prop :=
  (∃ msg, e = StockholmFormatError msg) ∨ (∃ s, e = CollaboratorError s).

(** The sequence label a GS line names, and the one a GR line names; no
    label for any other line. *)
Definition gs_label (line : string) : option string :=
  if Py.startswith line "#=GS" then
    match _remove_newline (Py.split_sep " " 3 line) with
    | Ok fields => fields !! 1
    | Raise _ => None
    end
  else None.

Definition gr_label (line : string) : option string :=
  if Py.startswith line "#=GR" then Py.split line !! 1 else None.

(** The value a GF line gives for the key [K]; none when the line is not
    a GF line with its three fields and that key. *)
Definition gf_value_for (K : string) (line : string) : option string :=
  if Py.startswith line "#=GF" then
    match _remove_newline (Py.split_sep " " 2 line) with
    | Ok fields =>
        match fields !! 1, fields !! 2 with
        | Some k, Some v => if decide (k = K) then Some v else None
        | _, _ => None
        end
    | Raise _ => None
    end
  else None.

(** The values the GF lines of a stream give for [K], in file order. *)
Definition gf_values (K : string) (fh : list string) : list string :=
  omap (gf_value_for K) fh.

(** [" ".join(vs)] for a list with an element; nothing for the empty
    list. *)
Definition join_space (vs : list string) : option string :=
  match vs with
  | [] => None
  | v :: vs' => Some (foldl (λ acc x, acc +:+ " " +:+ x) v vs')
  end.

(** What a GF line of value [v] makes of the value a key had. *)
Definition add_value (old : option string) (v : string) : option string :=
  Some (match old with
        | Some o => o +:+ " " +:+ v
        | None => v
        end).

(** The line feed that ends a line of a file. *)
Definition LF : string := String "010" EmptyString.

(** * Properties *)

Ltac run := unfold mbind, result_bind, subscript; simpl.

(** ** Sequencing *)

Lemma bind_Ok_inv {A B} (m : result A) (k : A → result B) b :
  m ≫= k = Ok b → ∃ a, m = Ok a ∧ k a = Ok b.
Proof. destruct m as [a|e]; [eauto | discriminate]. Qed.

Lemma subscript_Ok {A} (l : list A) i a : l !! i = Some a → subscript l i = Ok a.
Proof. unfold subscript. by intros ->. Qed.

(** ** Strings *)

Lemma newline_is_space c : Py.isspace_char c = false → Ascii.eqb c "010" = false.
Proof. destruct c as [[] [] [] [] [] [] [] []]; (reflexivity || discriminate). Qed.

(** No field of [s.split()] holds a newline. *)
Lemma split_no_newline s :
  Forall (λ t, Py.contains "010" t = false) (Py.split s).
Proof.
  induction s as [|c s IH]; simpl; [constructor|].
  destruct (Py.isspace_char c) eqn:Hc; [exact IH|].
  apply newline_is_space in Hc.
  destruct s as [|c' s'].
  - repeat constructor. simpl. by rewrite Hc.
  - destruct (Py.isspace_char c') eqn:Hc'.
    + constructor; [simpl; by rewrite Hc | exact IH].
    + destruct (Py.split (String c' s')) as [|t ts].
      * repeat constructor. simpl. by rewrite Hc.
      * inversion IH as [|? ? Ht Hts]; subst.
        constructor; [simpl; by rewrite Hc, Ht | exact Hts].
Qed.

(** So [_remove_newline] leaves the fields of [s.split()] as they are. *)
Lemma _remove_newline_split s :
  Py.split s ≠ [] → _remove_newline (Py.split s) = Ok (Py.split s).
Proof.
  intros Hne. unfold _remove_newline.
  destruct (last (Py.split s)) as [x|] eqn:Hl.
  - rewrite last_lookup in Hl.
    replace (length (Py.split s) - 1) with (pred (length (Py.split s))) by lia.
    rewrite (subscript_Ok _ _ _ Hl). simpl.
    assert (Hx : Py.contains "010" x = false).
    { pose proof (split_no_newline s) as HF.
      rewrite Forall_forall in HF. apply HF.
      apply list_elem_of_lookup. eauto. }
    by rewrite Hx.
  - apply last_None in Hl. contradiction.
Qed.

Lemma _remove_newline_length l l' :
  _remove_newline l = Ok l' → length l' = length l.
Proof.
  unfold _remove_newline. intros H.
  apply bind_Ok_inv in H as (x & _ & H).
  destruct (Py.contains "010" x); inversion H; subst; [apply length_insert | done].
Qed.

Lemma _remove_newline_nonempty l :
  l ≠ [] → ∃ l', _remove_newline l = Ok l'.
Proof.
  intros Hne. unfold _remove_newline.
  destruct (l !! (length l - 1)) as [x|] eqn:Hx.
  - rewrite (subscript_Ok _ _ _ Hx). simpl.
    destruct (Py.contains "010" x); eauto.
  - apply lookup_ge_None in Hx. destruct l; [done | simpl in Hx; lia].
Qed.

Lemma split_sep_nonempty sep n s : Py.split_sep sep n s ≠ [].
Proof.
  revert n. induction s as [|c s IH]; intros n; simpl; [done|].
  destruct n; [done|].
  destruct (Ascii.eqb c sep); [done|].
  destruct (Py.split_sep sep (S n) s); done.
Qed.

(** Cutting at a separator: the field before its first occurrence. *)
Lemma split_sep_cut sep n t s :
  Py.contains sep t = false →
  Py.split_sep sep (S n) (t +:+ String sep s) = t :: Py.split_sep sep n s.
Proof.
  induction t as [|a t IH]; cbn [String.append]; simpl.
  - intros _. by rewrite Ascii.eqb_refl.
  - intros [Ha Ht]%orb_false_elim. rewrite Ha.
    cbn [String.append] in IH. by rewrite (IH Ht).
Qed.

Lemma split_sep_0 sep s : Py.split_sep sep 0 s = [s].
Proof. by destruct s. Qed.

Lemma contains_app_LF v : Py.contains "010" (v +:+ LF) = true.
Proof.
  induction v as [|a v IH]; cbn [String.append]; simpl; [done|].
  cbn [String.append] in IH. rewrite IH. apply orb_true_r.
Qed.

Lemma rstrip_app_LF v :
  Py.contains "010" v = false → Py.rstrip "010" (v +:+ LF) = v.
Proof.
  induction v as [|a v IH]; cbn [String.append]; simpl; [done|].
  intros [Ha Hv]%orb_false_elim. cbn [String.append] in IH.
  rewrite (IH Hv), Ha. by destruct v.
Qed.

(** The fields of a GF line and of a GS line written in the usual way,
    with single spaces and a final line feed. *)
Lemma gf_line_fields key value :
  Py.contains " " key = false → Py.contains "010" value = false →
  _remove_newline
    (Py.split_sep " " 2 ("#=GF " +:+ key +:+ " " +:+ value +:+ LF))
  = Ok ["#=GF"; key; value].
Proof.
  intros Hk Hv.
  change ("#=GF " +:+ key +:+ " " +:+ value +:+ LF)
    with ("#=GF" +:+ String " " (key +:+ String " " (value +:+ LF))).
  rewrite split_sep_cut by reflexivity.
  rewrite (split_sep_cut _ _ _ _ Hk), split_sep_0.
  unfold _remove_newline. run.
  by rewrite contains_app_LF, (rstrip_app_LF _ Hv).
Qed.

Lemma gs_line_fields name key value :
  Py.contains " " name = false → Py.contains " " key = false →
  Py.contains "010" value = false →
  _remove_newline
    (Py.split_sep " " 3
       ("#=GS " +:+ name +:+ " " +:+ key +:+ " " +:+ value +:+ LF))
  = Ok ["#=GS"; name; key; value].
Proof.
  intros Hn Hk Hv.
  change ("#=GS " +:+ name +:+ " " +:+ key +:+ " " +:+ value +:+ LF)
    with ("#=GS" +:+
          String " " (name +:+ String " " (key +:+ String " " (value +:+ LF)))).
  rewrite split_sep_cut by reflexivity.
  rewrite (split_sep_cut _ _ _ _ Hn), (split_sep_cut _ _ _ _ Hk), split_sep_0.
  unfold _remove_newline. run.
  by rewrite contains_app_LF, (rstrip_app_LF _ Hv).
Qed.

(** ** The ordered dictionary *)

Lemma od_get_None k (d : OrderedDict) : od_get k d = None ↔ k ∉ od_keys d.
Proof.
  unfold od_keys. induction d as [|[k' v] d IH]; simpl.
  - split; [intros _; apply not_elem_of_nil | done].
  - rewrite not_elem_of_cons. case_decide as Hk.
    + split; [done | intros [Hne _]; congruence].
    + rewrite IH. split; [intros ?; split; [congruence | done] | by intros [_ ?]].
Qed.

Lemma od_get_Some k (d : OrderedDict) : is_Some (od_get k d) ↔ k ∈ od_keys d.
Proof.
  rewrite <- not_eq_None_Some, od_get_None.
  destruct (decide (k ∈ od_keys d)); naive_solver.
Qed.

Lemma od_mem_true k (d : OrderedDict) : od_mem k d = true ↔ k ∈ od_keys d.
Proof. unfold od_mem. by rewrite bool_decide_eq_true, od_get_Some. Qed.

Lemma od_mem_false k (d : OrderedDict) : od_mem k d = false ↔ k ∉ od_keys d.
Proof. unfold od_mem. by rewrite bool_decide_eq_false, od_get_Some. Qed.

(** A new key goes last. *)
Lemma od_set_fresh k v (d : OrderedDict) :
  k ∉ od_keys d → od_set k v d = d ++ [(k, v)].
Proof.
  unfold od_keys. induction d as [|[k' v'] d IH]; simpl; [done|].
  rewrite not_elem_of_cons. intros [Hne Hd].
  case_decide; [congruence|]. by rewrite IH.
Qed.

(** A present key keeps its place. *)
Lemma od_set_keys k v (d : OrderedDict) :
  k ∈ od_keys d → od_keys (od_set k v d) = od_keys d.
Proof.
  unfold od_keys. induction d as [|[k' v'] d IH]; simpl.
  - by intros ?%elem_of_nil.
  - intros Hk. case_decide; [done|]. simpl. f_equal. apply IH.
    apply elem_of_cons in Hk as [->|]; [congruence | done].
Qed.

Lemma od_get_set_eq k v (d : OrderedDict) : od_get k (od_set k v d) = Some v.
Proof.
  induction d as [|[k' v'] d IH]; simpl.
  - by rewrite decide_True.
  - case_decide as Hk; simpl; [by rewrite decide_True | by rewrite decide_False].
Qed.

Lemma od_get_set_ne k k' v (d : OrderedDict) :
  k ≠ k' → od_get k' (od_set k v d) = od_get k' d.
Proof.
  intros Hne. induction d as [|[k'' v'] d IH]; simpl.
  - by rewrite decide_False.
  - case_decide as Hk; simpl.
    + subst. by rewrite !decide_False.
    + case_decide; [done | exact IH].
Qed.

Lemma od_get_app_l k (d1 d2 : OrderedDict) r :
  od_get k d1 = Some r → od_get k (d1 ++ d2) = Some r.
Proof.
  induction d1 as [|[k' v'] d1 IH]; simpl; [done|].
  case_decide; [done | exact IH].
Qed.

(** With distinct keys, each key reads the record listed next to it. *)
Lemma od_get_elem_of k r (d : OrderedDict) :
  NoDup (od_keys d) → (k, r) ∈ d → od_get k d = Some r.
Proof.
  unfold od_keys. induction d as [|[k' v'] d IH]; simpl.
  - by intros _ ?%elem_of_nil.
  - intros [Hnotin Hnd]%NoDup_cons [Heq|Hin]%elem_of_cons.
    + inversion Heq; subst. by rewrite decide_True.
    + case_decide; [|by apply IH]. subst.
      exfalso. apply Hnotin. apply list_elem_of_fmap. by exists (k, r).
Qed.

Lemma skeleton_keys d : (skeleton d).*1 = od_keys d.
Proof. unfold skeleton, od_keys. rewrite <- list_fmap_compose. done. Qed.

Lemma od_set_skeleton k v r (d : OrderedDict) :
  od_get k d = Some r → seq v = seq r → skeleton (od_set k v d) = skeleton d.
Proof.
  unfold skeleton. induction d as [|[k' v'] d IH]; simpl; [done|].
  case_decide; simpl.
  - intros [= ->] Hs. by rewrite Hs.
  - intros Hg Hs. f_equal. by apply IH.
Qed.

(** ** The first pass *)

(** A data line that is accepted has two fields, a label not seen before,
    and adds its record after all the others. *)
Lemma data_line_Ok line d d' :
  _parse_stockholm_line_data line d = Ok d' →
  2 ≤ length (Py.split line) ∧ (label line ∉ od_keys d) ∧
  d' = d ++ [record_of line].
Proof.
  unfold _parse_stockholm_line_data, record_of, label, token.
  destruct (Py.split line) as [|name [|tok rest]]; run; [done|..].
  - destruct (od_mem name d); done.
  - destruct (od_mem name d) eqn:Hm; simpl; [done|].
    apply od_mem_false in Hm. intros [= <-].
    split; [lia|]. split; [done|]. by apply od_set_fresh.
Qed.

Lemma data_line_seen line d name rest :
  Py.split line = name :: rest → name ∈ od_keys d →
  _parse_stockholm_line_data line d
  = Raise (StockholmFormatError (Multiple_data_lines name)).
Proof.
  intros Hs Hk. unfold _parse_stockholm_line_data. rewrite Hs. run.
  apply od_mem_true in Hk. by rewrite Hk.
Qed.

Lemma data_line_one_field line d name :
  Py.split line = [name] → name ∉ od_keys d →
  _parse_stockholm_line_data line d = Raise IndexError.
Proof.
  intros Hs Hk. unfold _parse_stockholm_line_data. rewrite Hs. run.
  apply od_mem_false in Hk. by rewrite Hk.
Qed.

Lemma data_line_no_field line d :
  Py.split line = [] → _parse_stockholm_line_data line d = Raise IndexError.
Proof. intros Hs. unfold _parse_stockholm_line_data. by rewrite Hs. Qed.

Lemma data_line_two_fields line d :
  2 ≤ length (Py.split line) →
  (∃ d', _parse_stockholm_line_data line d = Ok d') ∨
  _parse_stockholm_line_data line d
  = Raise (StockholmFormatError (Multiple_data_lines (label line))).
Proof.
  unfold _parse_stockholm_line_data, label.
  destruct (Py.split line) as [|name [|tok rest]]; simpl; [lia..|].
  intros _. run. destruct (od_mem name d); simpl; eauto.
Qed.

Lemma data_pass_app pre post d :
  data_pass (pre ++ post) d = data_pass pre d ≫= data_pass post.
Proof.
  revert d. induction pre as [|line pre IH]; intros d; simpl; [done|].
  destruct (if is_data_line line then _ else _) as [d1|e]; run; [apply IH | done].
Qed.

Lemma data_pass_Ok fh d d' :
  data_pass fh d = Ok d' → d' = d ++ (record_of <$> data_lines fh).
Proof.
  revert d. induction fh as [|line fh IH]; intros d; simpl.
  - intros [= <-]. by rewrite app_nil_r.
  - unfold data_lines. simpl. intros H.
    apply bind_Ok_inv in H as (d1 & H1 & H).
    apply IH in H. destruct (is_data_line line); simpl.
    + apply data_line_Ok in H1 as (_ & _ & ->).
      by rewrite <- app_assoc in H.
    + by inversion H1; subst.
Qed.

Lemma data_pass_NoDup fh d d' :
  data_pass fh d = Ok d' → NoDup (od_keys d) → NoDup (od_keys d').
Proof.
  revert d. induction fh as [|line fh IH]; intros d; simpl.
  - by intros [= <-].
  - intros H Hnd. apply bind_Ok_inv in H as (d1 & H1 & H).
    apply (IH _ H). destruct (is_data_line line).
    + apply data_line_Ok in H1 as (_ & Hfresh & ->).
      unfold od_keys in *. rewrite fmap_app. simpl.
      apply NoDup_app. split; [done|]. split; [|apply NoDup_singleton].
      intros x Hx ->%list_elem_of_singleton. done.
    + by inversion H1; subst.
Qed.

(** When every data line has its two fields, the first pass can only
    stop at a repeated label. *)
Lemma data_pass_two_fields fh d :
  Forall (λ l, is_data_line l = true → 2 ≤ length (Py.split l)) fh →
  (∃ d', data_pass fh d = Ok d') ∨
  (∃ n, data_pass fh d
        = Raise (StockholmFormatError (Multiple_data_lines n))).
Proof.
  intros Hwf. revert d.
  induction Hwf as [|line fh Hline Hwf IH]; intros d; simpl; [eauto|].
  destruct (is_data_line line); run; [|apply IH].
  destruct (data_line_two_fields line d (Hline eq_refl)) as [[d' ->]| ->].
  - apply IH.
  - eauto.
Qed.

(** After the first pass the dictionary lists the data lines, in file
    order, and no two of them carry the same label. *)
Lemma data_pass_init fh d :
  data_pass fh [] = Ok d →
  d = record_of <$> data_lines fh ∧ od_keys d = data_labels fh ∧
  NoDup (data_labels fh).
Proof.
  intros H. pose proof (data_pass_Ok _ _ _ H) as Hd. simpl in Hd.
  assert (Hk : od_keys d = data_labels fh).
  { rewrite Hd. unfold od_keys, data_labels. by rewrite <- list_fmap_compose. }
  split; [done|]. split; [done|]. rewrite <- Hk.
  apply (data_pass_NoDup _ _ _ H). apply NoDup_nil_2.
Qed.

(** ** The second pass *)

Lemma markup_pass_app pre post st :
  markup_pass (pre ++ post) st = markup_pass pre st ≫= markup_pass post.
Proof.
  revert st. induction pre as [|line pre IH]; intros st; simpl; [done|].
  destruct (markup_line line st) as [st1|e]; run; [apply IH | done].
Qed.

(** The GS and GR parsers touch neither a label nor a sequence. *)
Lemma gs_skeleton line d d' :
  _parse_stockholm_line_gs line d = Ok d' → skeleton d' = skeleton d.
Proof.
  unfold _parse_stockholm_line_gs. intros H.
  apply bind_Ok_inv in H as (fields & _ & H).
  apply bind_Ok_inv in H as (name & _ & H).
  apply bind_Ok_inv in H as (feature & _ & H).
  destruct (od_get name d) as [r|] eqn:Hr; [|done].
  destruct (falsy (metadata r)); [|by inversion H].
  apply bind_Ok_inv in H as (v & _ & H). inversion H; subst.
  by apply (od_set_skeleton _ _ r).
Qed.

Lemma gr_skeleton line d d' :
  _parse_stockholm_line_gr line d = Ok d' → skeleton d' = skeleton d.
Proof.
  unfold _parse_stockholm_line_gr. intros H.
  apply bind_Ok_inv in H as (fields & _ & H).
  apply bind_Ok_inv in H as (name & _ & H).
  apply bind_Ok_inv in H as (feature & _ & H).
  destruct (od_get name d) as [r|] eqn:Hr; [|done].
  destruct (pos_metadata r !! feature); [done|].
  apply bind_Ok_inv in H as (v & _ & H). inversion H; subst.
  by apply (od_set_skeleton _ _ r).
Qed.

Lemma markup_line_skeleton line st st' :
  markup_line line st = Ok st' →
  skeleton (l_dna_data st') = skeleton (l_dna_data st).
Proof.
  unfold markup_line. intros H.
  repeat match type of H with
         | (if ?b then _ else _) = _ => destruct b
         end.
  - apply bind_Ok_inv in H as (m & _ & H). by inversion H.
  - apply bind_Ok_inv in H as (d & Hd & H). inversion H; subst; simpl.
    by apply gs_skeleton in Hd.
  - apply bind_Ok_inv in H as (d & Hd & H). inversion H; subst; simpl.
    by apply gr_skeleton in Hd.
  - apply bind_Ok_inv in H as (m & _ & H). by inversion H.
  - by inversion H.
Qed.

Lemma markup_pass_skeleton fh st st' :
  markup_pass fh st = Ok st' →
  skeleton (l_dna_data st') = skeleton (l_dna_data st).
Proof.
  revert st. induction fh as [|line fh IH]; intros st; simpl.
  - by intros [= <-].
  - intros H. apply bind_Ok_inv in H as (st1 & H1 & H).
    rewrite (IH _ H). by apply markup_line_skeleton in H1.
Qed.

Lemma markup_pass_keys fh st st' :
  markup_pass fh st = Ok st' →
  od_keys (l_dna_data st') = od_keys (l_dna_data st).
Proof.
  intros H. rewrite <- !skeleton_keys. by rewrite (markup_pass_skeleton _ _ _ H).
Qed.

(** A line that starts with [p] is [p] followed by something; so a line
    with one of the four markers is dispatched to the parser of that
    marker and to no other. *)
Lemma startswith_inv line p :
  Py.startswith line p = true → ∃ rest, line = p +:+ rest.
Proof.
  unfold Py.startswith. revert line.
  induction p as [|c p IH]; intros line; [by exists line|].
  destruct line as [|c' line]; simpl; [done|].
  destruct (ascii_dec c c') as [<-|]; [|done].
  intros [rest ->]%IH. by exists rest.
Qed.

Lemma prefix_nil s : String.prefix EmptyString s = true.
Proof. by destruct s. Qed.

Ltac marked H :=
  apply startswith_inv in H as [? ->]; unfold markup_line, Py.startswith;
  cbn [String.append String.prefix]; simpl; rewrite ?prefix_nil.

Lemma markup_line_gf line st :
  Py.startswith line "#=GF" = true →
  markup_line line st
  = m ← _parse_stockholm_line_gf line (l_metadata st);
    Ok (mkLocals m (l_dna_data st) (l_positional_metadata st)).
Proof. intros H. unfold markup_line. by rewrite H. Qed.

Lemma markup_line_gs line st :
  Py.startswith line "#=GS" = true →
  markup_line line st
  = d ← _parse_stockholm_line_gs line (l_dna_data st);
    Ok (mkLocals (l_metadata st) d (l_positional_metadata st)).
Proof. intros H. marked H. reflexivity. Qed.

Lemma markup_line_gr line st :
  Py.startswith line "#=GR" = true →
  markup_line line st
  = d ← _parse_stockholm_line_gr line (l_dna_data st);
    Ok (mkLocals (l_metadata st) d (l_positional_metadata st)).
Proof. intros H. marked H. reflexivity. Qed.

Lemma markup_line_gc line st :
  Py.startswith line "#=GC" = true →
  markup_line line st
  = p ← _parse_stockholm_line_gc line (l_positional_metadata st);
    Ok (mkLocals (l_metadata st) (l_dna_data st) p).
Proof. intros H. marked H. reflexivity. Qed.

(** ** Assembly *)

Section Assembly.

Context {Seq : Type}.
Variable ctor :
  string → option (gmap string string) → option (gmap string (list ascii))
  → string + Seq.

Lemma assemble_length keys d seqs :
  assemble ctor keys d = Ok seqs → length seqs = length keys.
Proof.
  revert seqs. induction keys as [|key keys IH]; intros seqs; simpl.
  - by intros [= <-].
  - intros H.
    apply bind_Ok_inv in H as (r & _ & H).
    apply bind_Ok_inv in H as (s & _ & H).
    apply bind_Ok_inv in H as (seqs' & Hs & H).
    inversion H; subst. simpl. f_equal. by apply IH.
Qed.

(** The sequences are built from the data lines, one each, in order. *)
Lemma assemble_lines d lines seqs :
  NoDup (od_keys d) →
  (∀ line, line ∈ lines → (label line, token line) ∈ skeleton d) →
  assemble ctor (label <$> lines) d = Ok seqs →
  Forall2 (λ line s, ∃ m p, call (ctor (token line) m p) = Ok s) lines seqs.
Proof.
  intros Hnd. revert seqs.
  induction lines as [|line lines IH]; intros seqs Hin; simpl.
  - intros [= <-]. constructor.
  - intros H.
    apply bind_Ok_inv in H as (r & Hr & H).
    apply bind_Ok_inv in H as (s & Hs & H).
    apply bind_Ok_inv in H as (seqs' & Hseqs & H).
    inversion H; subst. constructor.
    + assert (Hl : (label line, token line) ∈ skeleton d)
        by (apply Hin; left).
      apply list_elem_of_fmap in Hl as ([k r'] & [= Hk Ht] & Hl).
      simpl in Hk, Ht. subst k.
      apply (od_get_elem_of _ _ _ Hnd) in Hl.
      unfold od_getitem in Hr. rewrite Hl in Hr. inversion Hr; subst.
      rewrite Ht. eauto.
    + apply IH; [|done]. intros l Hl. apply Hin. by right.
Qed.

(** What [collect] returns, step by step. *)
Lemma collect_Ok fh args :
  collect ctor fh = Ok args →
  ∃ d st seqs,
    data_pass fh [] = Ok d ∧
    markup_pass fh (mkLocals ∅ d ∅) = Ok st ∧
    assemble ctor (od_keys (l_dna_data st)) (l_dna_data st) = Ok seqs ∧
    seqs ≠ [] ∧
    args = mkArgs seqs (l_metadata st)
             (none_if_falsy (l_positional_metadata st))
             (od_keys (l_dna_data st)).
Proof.
  unfold collect. intros H.
  apply bind_Ok_inv in H as (d & Hd & H).
  apply bind_Ok_inv in H as (st & Hst & H).
  apply bind_Ok_inv in H as (seqs & Hseqs & H).
  exists d, st, seqs. destruct seqs; [done|]. by inversion H.
Qed.

Lemma collect_order fh args :
  collect ctor fh = Ok args →
  a_index args = data_labels fh ∧ NoDup (data_labels fh) ∧
  Forall2 (λ line s, ∃ m p, call (ctor (token line) m p) = Ok s)
    (data_lines fh) (a_seqs args).
Proof.
  intros H. apply collect_Ok in H as (d & st & seqs & Hd & Hst & Hs & _ & ->).
  apply data_pass_init in Hd as (Hrec & Hk & Hnd).
  pose proof (markup_pass_skeleton _ _ _ Hst) as Hsk. simpl in Hsk.
  pose proof (markup_pass_keys _ _ _ Hst) as Hkeys. simpl in Hkeys.
  rewrite Hk in Hkeys. simpl. split; [done|]. split; [done|].
  apply (assemble_lines (l_dna_data st)).
  - by rewrite Hkeys.
  - intros line Hin. rewrite Hsk, Hrec. unfold skeleton.
    rewrite <- list_fmap_compose. apply list_elem_of_fmap.
    by exists line.
  - unfold data_labels in Hkeys. by rewrite <- Hkeys.
Qed.

End Assembly.

(** ** The sniffer *)

Lemma slice_to_length n s : String.length (Py.slice_to n s) ≤ String.length s.
Proof.
  unfold Py.slice_to. revert s.
  induction n as [|n IH]; intros [|c s]; simpl; try lia.
  specialize (IH s). lia.
Qed.

Lemma short_line_no_signature line :
  String.length line < 15 → Py.slice_to 15 line ≠ signature.
Proof.
  intros Hlt Heq. pose proof (slice_to_length 15 line) as Hle.
  rewrite Heq in Hle. simpl in Hle. lia.
Qed.

(** The first fifteen characters are the signature exactly when the line
    starts with it. *)
Lemma slice_to_signature line :
  Py.slice_to 15 line = signature ↔ ∃ tail, line = signature +:+ tail.
Proof.
  change 15 with (String.length signature). unfold Py.slice_to.
  rewrite <- String.prefix_correct. split.
  - apply startswith_inv.
  - intros [tail ->]. unfold signature.
    cbn [String.append String.prefix]. simpl. apply prefix_nil.
Qed.

(** C9. The sniffer answers true exactly when the stream has a first line
    whose first 15 characters are [# STOCKHOLM 1.0]; a shorter first line
    and the empty stream give false; the call takes the first line off the
    stream and nothing more, and its answer depends on that line alone. *)
Theorem sniffer_first_line_signature (fh : list string) :
  ((_stockholm_sniffer fh).1 = true ↔
   ∃ line rest, fh = line :: rest ∧ Py.slice_to 15 line = "# STOCKHOLM 1.0") ∧
  ((_stockholm_sniffer fh).1 = true ↔
   ∃ tail rest, fh = ("# STOCKHOLM 1.0" +:+ tail) :: rest) ∧
  (fh = [] → (_stockholm_sniffer fh).1 = false) ∧
  (∀ line rest, fh = line :: rest → String.length line < 15 →
     (_stockholm_sniffer fh).1 = false) ∧
  (_stockholm_sniffer fh).2 = drop 1 fh ∧
  (∀ fh' : list string, head fh' = head fh →
     (_stockholm_sniffer fh').1 = (_stockholm_sniffer fh).1).
Proof.
  assert (Hiff : (_stockholm_sniffer fh).1 = true ↔
    ∃ line rest, fh = line :: rest ∧ Py.slice_to 15 line = "# STOCKHOLM 1.0").
  { destruct fh as [|line rest]; simpl.
    - split; [done | by intros (? & ? & ? & _)].
    - case_decide as Hs; simpl.
      + split; [|done]. intros _. by exists line, rest.
      + split; [done|]. intros (l & r & [= <- <-] & Hl). contradiction. }
  split; [exact Hiff|]. split; [|split; [|split; [|split]]].
  - rewrite Hiff. split.
    + intros (line & rest & -> & [tail ->]%slice_to_signature). eauto.
    + intros (tail & rest & ->). eexists _, rest. split; [done|].
      apply slice_to_signature. eauto.
  - by intros ->.
  - intros line rest -> Hlt. simpl.
    rewrite decide_False; [done | by apply short_line_no_signature].
  - destruct fh as [|line rest]; simpl; [done|]. by case_decide.
  - intros fh' Hh. destruct fh as [|line rest], fh' as [|line' rest'];
      simpl in *; try done.
    inversion Hh; subst. by case_decide.
Qed.

(** ** The data line parser *)

(** C10. The data line parser cannot fail otherwise than by the duplicate
    label error when the line has two white-space-delimited fields or
    more, and has that guarantee for no other line: a line of one field
    that the classifier takes for a data line (['seq1\n']) raises an
    IndexError, which is no StockholmFormatError, whenever its label is
    new (so always in a fresh session); a line without any field raises
    it in every state. *)
Theorem data_line_total_iff_two_fields (line : string) :
  (2 ≤ length (Py.split line) →
   ∀ d, (∃ d', _parse_stockholm_line_data line d = Ok d') ∨
        _parse_stockholm_line_data line d
        = Raise (StockholmFormatError (Multiple_data_lines (label line)))) ∧
  (∀ name, is_data_line line = true → Py.split line = [name] →
     ∀ d, name ∉ od_keys d →
       _parse_stockholm_line_data line d = Raise IndexError ∧
       ∀ msg, _parse_stockholm_line_data line d
              ≠ Raise (StockholmFormatError msg)) ∧
  ((∀ d, _parse_stockholm_line_data line d ≠ Raise IndexError) →
   2 ≤ length (Py.split line)).
Proof.
  split; [|split].
  - intros H2 d. by apply data_line_two_fields.
  - intros name _ Hs d Hk.
    rewrite (data_line_one_field _ _ _ Hs Hk). done.
  - intros Hall. destruct (Py.split line) as [|name [|tok rest]] eqn:Hs.
    + exfalso. apply (Hall []). by apply data_line_no_field.
    + exfalso. apply (Hall []). apply (data_line_one_field _ _ name Hs).
      apply not_elem_of_nil.
    + simpl. lia.
Qed.

Lemma collect_data_pass_Raise {Seq} (ctor : string → _ → _ → string + Seq) fh e :
  data_pass fh [] = Raise e → collect ctor fh = Raise e.
Proof. intros H. unfold collect. by rewrite H. Qed.

Lemma collect_markup_pass_Raise {Seq} (ctor : string → _ → _ → string + Seq)
    fh d e :
  data_pass fh [] = Ok d → markup_pass fh (mkLocals ∅ d ∅) = Raise e →
  collect ctor fh = Raise e.
Proof. intros Hd Hm. unfold collect. rewrite Hd. run. by rewrite Hm. Qed.

Lemma reader_collect_Raise {Seq MSA} (ctor : string → _ → _ → string + Seq)
    (tm : msa_args Seq → string + MSA) fh e :
  collect ctor fh = Raise e → _stockholm_to_tabular_msa ctor tm fh = Raise e.
Proof. intros H. unfold _stockholm_to_tabular_msa. by rewrite H. Qed.

(** C7. A data line whose label is already a key of [dna_data] raises
    "Found multiple data lines under same name"; a data line that is
    accepted has a new label and leaves every record present before it
    as it was. For the reader: a stream in which a data line repeats the
    label of an earlier data line is rejected with that error for that
    label once the first pass has come to the line, and with that error
    for some label whenever the data lines before it have their two
    fields. *)
Theorem duplicate_data_label_rejected {Seq MSA}
    (ctor : string → option (gmap string string) →
            option (gmap string (list ascii)) → string + Seq)
    (tm : msa_args Seq → string + MSA)
    (line : string) (d : OrderedDict) (name : string) (rest : list string) :
  Py.split line = name :: rest →
  (name ∈ od_keys d →
   _parse_stockholm_line_data line d
   = Raise (StockholmFormatError (Multiple_data_lines name))) ∧
  (∀ d', _parse_stockholm_line_data line d = Ok d' →
     (name ∉ od_keys d) ∧
     ∀ k r, od_get k d = Some r → od_get k d' = Some r) ∧
  (∀ pre post, is_data_line line = true → data_pass pre [] = Ok d →
     name ∈ data_labels pre →
     _stockholm_to_tabular_msa ctor tm (pre ++ line :: post)
     = Raise (StockholmFormatError (Multiple_data_lines name))) ∧
  (∀ pre post, is_data_line line = true →
     Forall (λ l, is_data_line l = true → 2 ≤ length (Py.split l)) pre →
     name ∈ data_labels pre →
     ∃ n, _stockholm_to_tabular_msa ctor tm (pre ++ line :: post)
          = Raise (StockholmFormatError (Multiple_data_lines n))).
Proof.
  intros Hs.
  assert (Hreached : ∀ pre post d0, is_data_line line = true →
    data_pass pre [] = Ok d0 → name ∈ data_labels pre →
    _stockholm_to_tabular_msa ctor tm (pre ++ line :: post)
    = Raise (StockholmFormatError (Multiple_data_lines name))).
  { intros pre post d0 Hdl Hpre Hin.
    apply reader_collect_Raise, collect_data_pass_Raise.
    rewrite data_pass_app, Hpre. run. rewrite Hdl.
    apply data_pass_init in Hpre as (_ & Hk & _).
    rewrite (data_line_seen _ _ _ _ Hs); [done | by rewrite Hk]. }
  split; [|split; [|split]]; [| |by eauto|].
  - by apply data_line_seen with rest.
  - intros d' H. apply data_line_Ok in H as (_ & Hfresh & ->).
    unfold label in Hfresh. rewrite Hs in Hfresh. split; [done|].
    intros k r. apply od_get_app_l.
  - intros pre post Hdl Hwf Hin.
    destruct (data_pass_two_fields pre [] Hwf) as [[d0 Hpre]|[n Hpre]].
    + exists name. by apply Hreached with d0.
    + exists n. apply reader_collect_Raise, collect_data_pass_Raise.
      by rewrite data_pass_app, Hpre.
Qed.

(** ** The GC line parser *)

(** A column feature once stored stays stored: no line removes a key
    of the column metadata. *)
Lemma gc_keeps line pm pm' k :
  _parse_stockholm_line_gc line pm = Ok pm' →
  is_Some (pm !! k) → is_Some (pm' !! k).
Proof.
  unfold _parse_stockholm_line_gc. intros H Hk.
  apply bind_Ok_inv in H as (fields & _ & H).
  apply bind_Ok_inv in H as (feature & _ & H).
  destruct (pm !! feature) eqn:Hf; [done|].
  apply bind_Ok_inv in H as (v & _ & H). inversion H; subst.
  rewrite lookup_insert_ne; [done|]. intros ->. rewrite Hf in Hk.
  by destruct Hk.
Qed.

Lemma markup_line_keeps line st st' k :
  markup_line line st = Ok st' →
  is_Some (l_positional_metadata st !! k) →
  is_Some (l_positional_metadata st' !! k).
Proof.
  unfold markup_line. intros H Hk.
  repeat match type of H with
         | (if ?b then _ else _) = _ => destruct b
         end.
  1-3: apply bind_Ok_inv in H as (? & _ & H); by inversion H.
  - apply bind_Ok_inv in H as (pm' & Hgc & H). inversion H; subst; simpl.
    by apply gc_keeps with line (l_positional_metadata st).
  - inversion H. by subst.
Qed.

Lemma markup_pass_keeps fh st st' k :
  markup_pass fh st = Ok st' →
  is_Some (l_positional_metadata st !! k) →
  is_Some (l_positional_metadata st' !! k).
Proof.
  revert st. induction fh as [|line fh IH]; intros st; simpl.
  - by intros [= <-].
  - intros H Hk. apply bind_Ok_inv in H as (st1 & H1 & H).
    apply (IH _ H). by apply markup_line_keeps with line st.
Qed.

(** A GC line that is accepted has stored its feature. *)
Lemma gc_Ok_stored line pm pm' marker feature rest :
  Py.split line = marker :: feature :: rest →
  _parse_stockholm_line_gc line pm = Ok pm' → is_Some (pm' !! feature).
Proof.
  intros Hs. unfold _parse_stockholm_line_gc.
  rewrite _remove_newline_split by (by rewrite Hs). rewrite Hs. run.
  destruct (pm !! feature); [done|].
  destruct rest as [|tok rest]; simpl; [done|].
  intros [= <-]. rewrite lookup_insert_eq. eauto.
Qed.

(** C6. A GC line whose feature label is already in the column metadata
    raises "Found duplicate GC label" and the reader stops there with
    that error; with a new label, the parser stores the characters of
    the column-data token, one by one, under that label. A stream with
    two GC lines of the same feature label is never accepted. *)
Theorem duplicate_gc_label_rejected {Seq MSA}
    (ctor : string → option (gmap string string) →
            option (gmap string (list ascii)) → string + Seq)
    (tm : msa_args Seq → string + MSA)
    (line : string) (pm : gmap string (list ascii))
    (marker feature : string) (rest : list string) :
  Py.split line = marker :: feature :: rest →
  (is_Some (pm !! feature) →
   _parse_stockholm_line_gc line pm
   = Raise (StockholmFormatError (Duplicate_GC_label feature))) ∧
  (pm !! feature = None → ∀ tok rest', rest = tok :: rest' →
   _parse_stockholm_line_gc line pm
   = Ok (<[feature := Py.list_of_str tok]> pm)) ∧
  (∀ pre post d st, Py.startswith line "#=GC" = true →
     data_pass (pre ++ line :: post) [] = Ok d →
     markup_pass pre (mkLocals ∅ d ∅) = Ok st →
     l_positional_metadata st = pm → is_Some (pm !! feature) →
     _stockholm_to_tabular_msa ctor tm (pre ++ line :: post)
     = Raise (StockholmFormatError (Duplicate_GC_label feature))) ∧
  (∀ pre mid post line' marker' rest',
     Py.startswith line "#=GC" = true → Py.startswith line' "#=GC" = true →
     Py.split line' = marker' :: feature :: rest' →
     ∃ e, _stockholm_to_tabular_msa ctor tm
            (pre ++ line :: mid ++ line' :: post) = Raise e).
Proof.
  intros Hs.
  assert (Hf : _remove_newline (Py.split line) = Ok (Py.split line)).
  { apply _remove_newline_split. by rewrite Hs. }
  assert (Hdup : is_Some (pm !! feature) →
    _parse_stockholm_line_gc line pm
    = Raise (StockholmFormatError (Duplicate_GC_label feature))).
  { intros [v Hv]. unfold _parse_stockholm_line_gc.
    rewrite Hf, Hs. run. by rewrite Hv. }
  split; [done|]. split; [|split].
  - intros Hnone tok rest' ->. unfold _parse_stockholm_line_gc.
    rewrite Hf, Hs. run. by rewrite Hnone.
  - intros pre post d st Hgc Hd Hpre <- Hin.
    apply reader_collect_Raise.
    eapply collect_markup_pass_Raise; [exact Hd|].
    rewrite markup_pass_app, Hpre. run.
    rewrite (markup_line_gc _ _ Hgc), (Hdup Hin). done.
  - intros pre mid post line' marker' rest' Hgc Hgc' Hs'.
    destruct (data_pass (pre ++ line :: mid ++ line' :: post) [])
      as [d|e] eqn:Hd;
      [|exists e; by apply reader_collect_Raise, collect_data_pass_Raise].
    cut (∃ e, markup_pass (pre ++ line :: mid ++ line' :: post)
                (mkLocals ∅ d ∅) = Raise e).
    { intros [e He]. exists e. apply reader_collect_Raise.
      by apply collect_markup_pass_Raise with d. }
    rewrite markup_pass_app.
    destruct (markup_pass pre (mkLocals ∅ d ∅)) as [st1|e]; [|by exists e].
    simpl. rewrite (markup_line_gc _ _ Hgc).
    destruct (_parse_stockholm_line_gc line (l_positional_metadata st1))
      as [pm1|e] eqn:Hpm1; [|by exists e].
    apply (gc_Ok_stored _ _ _ _ _ _ Hs) in Hpm1. simpl.
    rewrite markup_pass_app.
    destruct (markup_pass mid _) as [st2|e] eqn:Hst2; [|by exists e].
    apply (markup_pass_keeps _ _ _ feature) in Hst2; [|done].
    simpl. rewrite (markup_line_gc _ _ Hgc').
    unfold _parse_stockholm_line_gc.
    rewrite _remove_newline_split by (by rewrite Hs'). rewrite Hs'. run.
    destruct Hst2 as [v ->]. eauto.
Qed.

(** ** The GF line parser *)

Lemma gf_fields_ge line md fields :
  _remove_newline (Py.split_sep " " 2 line) = Ok fields →
  3 ≤ length fields → ∃ md', _parse_stockholm_line_gf line md = Ok md'.
Proof.
  intros Hf Hlen. unfold _parse_stockholm_line_gf. rewrite Hf.
  destruct fields as [|m [|k [|v rest]]]; simpl in Hlen; try lia.
  run. destruct (md !! k); eauto.
Qed.

Lemma gf_fields_lt line md fields :
  _remove_newline (Py.split_sep " " 2 line) = Ok fields →
  length fields < 3 → _parse_stockholm_line_gf line md = Raise IndexError.
Proof.
  intros Hf Hlen. unfold _parse_stockholm_line_gf. rewrite Hf.
  destruct fields as [|m [|k [|v rest]]]; simpl in Hlen; try lia; done.
Qed.

Lemma gf_first line md marker key value rest :
  _remove_newline (Py.split_sep " " 2 line)
  = Ok (marker :: key :: value :: rest) →
  md !! key = None →
  _parse_stockholm_line_gf line md = Ok (<[key := value]> md).
Proof.
  intros Hf Hk. unfold _parse_stockholm_line_gf. rewrite Hf. run.
  by rewrite Hk.
Qed.

Lemma gf_again line md marker key value rest old :
  _remove_newline (Py.split_sep " " 2 line)
  = Ok (marker :: key :: value :: rest) →
  md !! key = Some old →
  _parse_stockholm_line_gf line md
  = Ok (<[key := old +:+ " " +:+ value]> md).
Proof.
  intros Hf Hk. unfold _parse_stockholm_line_gf. rewrite Hf. run.
  by rewrite Hk.
Qed.

(** Only a GF line with the key [K] changes what [K] maps to. *)
Lemma markup_line_metadata_frame line st st' K :
  markup_line line st = Ok st' → gf_key line ≠ Some K →
  l_metadata st' !! K = l_metadata st !! K.
Proof.
  unfold markup_line, gf_key. intros H Hkey.
  destruct (Py.startswith line "#=GF").
  - apply bind_Ok_inv in H as (m & Hm & H). inversion H; subst; simpl.
    unfold _parse_stockholm_line_gf in Hm.
    destruct (_remove_newline (Py.split_sep " " 2 line)) as [fields|];
      [|done].
    simpl in Hm. unfold subscript in Hm.
    destruct (fields !! 1) as [k|]; [|done]. simpl in Hm.
    destruct (fields !! 2) as [v|]; [|done]. simpl in Hm.
    assert (k ≠ K) by congruence.
    destruct (l_metadata st !! k); inversion Hm; subst;
      by rewrite lookup_insert_ne.
  - repeat match type of H with
           | (if ?b then _ else _) = _ => destruct b
           end;
      try (apply bind_Ok_inv in H as (? & _ & H)); by inversion H.
Qed.

Lemma markup_pass_metadata_frame fh st st' K :
  Forall (λ line, gf_key line ≠ Some K) fh →
  markup_pass fh st = Ok st' →
  l_metadata st' !! K = l_metadata st !! K.
Proof.
  intros Hfh. revert st.
  induction Hfh as [|line fh Hline Hfh IH]; intros st; simpl.
  - by intros [= <-].
  - intros H. apply bind_Ok_inv in H as (st1 & H1 & H).
    rewrite (IH _ H). by apply markup_line_metadata_frame with line.
Qed.

(** C5. Two GF lines with the same feature key, of values [a] then [b],
    parsed in that order into a mapping that did not hold the key: after
    the first line the key maps to [a] itself, after the second to
    [a b], the two values in line order with one space between them; no
    other key changes. And when these are the only two GF lines of a
    stream with that key, the metadata the reader hands to TabularMSA
    maps the key to [a b]. *)
Theorem gf_same_key_concatenated
    (line1 line2 m1 m2 K a b : string) (r1 r2 : list string) :
  _remove_newline (Py.split_sep " " 2 line1) = Ok (m1 :: K :: a :: r1) →
  _remove_newline (Py.split_sep " " 2 line2) = Ok (m2 :: K :: b :: r2) →
  (∀ md : gmap string string, md !! K = None →
   ∃ md1 md2,
     _parse_stockholm_line_gf line1 md = Ok md1 ∧ md1 !! K = Some a ∧
     _parse_stockholm_line_gf line2 md1 = Ok md2 ∧
     md2 !! K = Some (a +:+ " " +:+ b) ∧
     ∀ k, k ≠ K → md2 !! k = md !! k) ∧
  (∀ Seq (ctor : string → option (gmap string string) →
                 option (gmap string (list ascii)) → string + Seq)
     pre mid post args,
     Py.startswith line1 "#=GF" = true → Py.startswith line2 "#=GF" = true →
     Forall (λ line, gf_key line ≠ Some K) (pre ++ mid ++ post) →
     collect ctor (pre ++ line1 :: mid ++ line2 :: post) = Ok args →
     a_metadata args !! K = Some (a +:+ " " +:+ b)).
Proof.
  intros H1 H2. split.
  - intros md Hk.
    exists (<[K := a]> md), (<[K := a +:+ " " +:+ b]> (<[K := a]> md)).
    split; [by apply gf_first with m1 r1|].
    split; [apply lookup_insert_eq|].
    split; [apply gf_again with m2 r2; [done | apply lookup_insert_eq]|].
    split; [apply lookup_insert_eq|].
    intros k Hne. by rewrite !lookup_insert_ne.
  - intros Seq ctor pre mid post args Hgf1 Hgf2 Hothers Hc.
    apply Forall_app in Hothers as [Hpre Hothers].
    apply Forall_app in Hothers as [Hmid Hpost].
    apply collect_Ok in Hc as (d & st & seqs & _ & Hst & _ & _ & ->). simpl.
    rewrite markup_pass_app in Hst.
    apply bind_Ok_inv in Hst as (st1 & Hst1 & Hst). simpl in Hst.
    apply bind_Ok_inv in Hst as (st2 & Hst2 & Hst).
    rewrite markup_pass_app in Hst.
    apply bind_Ok_inv in Hst as (st3 & Hst3 & Hst). simpl in Hst.
    apply bind_Ok_inv in Hst as (st4 & Hst4 & Hst).
    apply (markup_pass_metadata_frame _ _ _ K Hpre) in Hst1. simpl in Hst1.
    rewrite lookup_empty in Hst1.
    rewrite (markup_line_gf _ _ Hgf1), (gf_first _ _ _ _ _ _ H1 Hst1) in Hst2.
    inversion Hst2; subst st2; clear Hst2.
    apply (markup_pass_metadata_frame _ _ _ K Hmid) in Hst3. simpl in Hst3.
    rewrite lookup_insert_eq in Hst3.
    rewrite (markup_line_gf _ _ Hgf2), (gf_again _ _ _ _ _ _ _ H2 Hst3) in Hst4.
    inversion Hst4; subst st4; clear Hst4.
    apply (markup_pass_metadata_frame _ _ _ K Hpost) in Hst. simpl in Hst.
    by rewrite Hst, lookup_insert_eq.
Qed.

(** C3, as the code has it. The GF parser cuts the line at its first two
    space characters (not at runs of white space); when that gives fewer
    than three fields the parser fails, by an IndexError and not by a
    StockholmFormatError; with three fields it never fails. *)
Theorem gf_too_few_fields (line : string) (md : gmap string string) :
  (length (Py.split_sep " " 2 line) < 3 →
   _parse_stockholm_line_gf line md = Raise IndexError) ∧
  (3 ≤ length (Py.split_sep " " 2 line) →
   ∃ md', _parse_stockholm_line_gf line md = Ok md').
Proof.
  destruct (_remove_newline_nonempty (Py.split_sep " " 2 line))
    as [fields Hf]; [apply split_sep_nonempty|].
  pose proof (_remove_newline_length _ _ Hf) as Hlen.
  split; intros H.
  - apply gf_fields_lt with fields; [done | lia].
  - apply gf_fields_ge with fields; [done | lia].
Qed.

(** ** The GS line parser *)

(** C2. A GS line that names a record of [dna_data]: when the metadata
    mapping of the record is empty, the parser puts the feature and its
    value into it; when the mapping holds anything, the line changes
    nothing and raises nothing. *)
Theorem gs_writes_only_into_empty_metadata
    (line : string) (d : OrderedDict) (marker name feature : string)
    (rest : list string) (r : SeqData) :
  _remove_newline (Py.split_sep " " 3 line)
  = Ok (marker :: name :: feature :: rest) →
  od_get name d = Some r →
  (metadata r ≠ ∅ → _parse_stockholm_line_gs line d = Ok d) ∧
  (metadata r = ∅ → ∀ value rest', rest = value :: rest' →
     ∃ d', _parse_stockholm_line_gs line d = Ok d' ∧
       od_get name d'
       = Some (mkSeqData (seq r) {[feature := value]} (pos_metadata r)) ∧
       od_keys d' = od_keys d ∧
       ∀ k, k ≠ name → od_get k d' = od_get k d).
Proof.
  intros Hf Hr. unfold _parse_stockholm_line_gs. rewrite Hf. run.
  rewrite Hr. unfold falsy. split.
  - intros Hne. by rewrite bool_decide_eq_false_2.
  - intros He value rest' ->. rewrite bool_decide_eq_true_2 by done. simpl.
    eexists. split; [done|]. rewrite He, insert_empty.
    split; [apply od_get_set_eq|].
    split; [apply od_set_keys, od_get_Some; eauto|].
    intros k Hne. by apply od_get_set_ne.
Qed.

Lemma first_seen_NoDup (l : list string) : NoDup l → first_seen l = l.
Proof.
  induction 1 as [|x l Hx Hnd IH]; simpl; [done|]. rewrite IH. f_equal.
  clear IH Hnd. induction l as [|y l IH]; simpl; [done|].
  apply not_elem_of_cons in Hx as [Hne Hx].
  destruct (String.eqb_spec x y); [done|]. simpl. f_equal. by apply IH.
Qed.

(** C4. When the reader returns an alignment, the index it hands to
    TabularMSA is the list of labels of the data lines in order of first
    appearance, and the sequences it hands over were built from the
    sequence tokens of the data lines, one per data line and in the same
    order; a stream with the same data lines in the same order, whatever
    its markup lines and their places, gets the same index and the same
    correspondence. *)
Theorem sequence_order_is_first_appearance {Seq MSA}
    (ctor : string → option (gmap string string) →
            option (gmap string (list ascii)) → string + Seq)
    (tm : msa_args Seq → string + MSA) (fh : list string) (msa : MSA) :
  _stockholm_to_tabular_msa ctor tm fh = Ok msa →
  ∃ args,
    collect ctor fh = Ok args ∧ call (tm args) = Ok msa ∧
    a_index args = first_seen (data_labels fh) ∧
    Forall2 (λ line s, ∃ m p, call (ctor (token line) m p) = Ok s)
      (data_lines fh) (a_seqs args) ∧
    ∀ fh' args',
      data_lines fh' = data_lines fh → collect ctor fh' = Ok args' →
      a_index args' = a_index args ∧
      Forall2 (λ line s, ∃ m p, call (ctor (token line) m p) = Ok s)
        (data_lines fh) (a_seqs args').
Proof.
  unfold _stockholm_to_tabular_msa. intros H.
  apply bind_Ok_inv in H as (args & Hc & Htm). exists args.
  destruct (collect_order ctor fh args Hc) as (Hi & Hnd & Hseqs).
  split; [done|]. split; [done|].
  split; [by rewrite first_seen_NoDup|]. split; [done|].
  intros fh' args' Hsame Hc'.
  destruct (collect_order ctor fh' args' Hc') as (Hi' & _ & Hseqs').
  unfold data_labels in *. rewrite Hsame in Hi', Hseqs'.
  split; [congruence | done].
Qed.

(** ** Which exceptions a step can raise *)

Section RaisesOnly.

Context (P : exn → Prop).

Lemma ro_Ok {A} (a : A) : raises_only P (Ok a).
Proof. intros e. discriminate. Qed.

Lemma ro_Raise {A} e : P e → raises_only P (@Raise A e).
Proof. intros He e' [= <-]. exact He. Qed.

Lemma ro_bind {A B} (m : result A) (k : A → result B) :
  raises_only P m → (∀ a, raises_only P (k a)) → raises_only P (m ≫= k).
Proof.
  intros Hm Hk e. destruct m as [a|e']; simpl.
  - apply Hk.
  - intros [= <-]. by apply Hm.
Qed.

Lemma ro_subscript {A} (l : list A) i :
  P IndexError → raises_only P (subscript l i).
Proof.
  intros HP. unfold subscript. destruct (l !! i); [apply ro_Ok | by apply ro_Raise].
Qed.

Lemma ro_call {A} (r : string + A) :
  (∀ s, P (CollaboratorError s)) → raises_only P (call r).
Proof. intros HP. destruct r; simpl; [by apply ro_Raise | apply ro_Ok]. Qed.

End RaisesOnly.

(** No step before the final emptiness test raises "No data present in
    file"; the lemmas below go through the steps one by one. *)
Ltac ro_step :=
  first
    [ apply ro_Ok
    | apply ro_subscript; done
    | apply ro_call; done
    | apply ro_Raise; done
    | apply ro_bind; [|intros ?]
    | match goal with
      | |- raises_only _ (match ?x with _ => _ end) => destruct x
      end ].

Lemma ro_remove_newline l : raises_only other_than_no_data (_remove_newline l).
Proof. unfold _remove_newline, other_than_no_data. repeat ro_step. Qed.

Lemma ro_data line d :
  raises_only other_than_no_data (_parse_stockholm_line_data line d).
Proof. unfold _parse_stockholm_line_data, other_than_no_data. repeat ro_step. Qed.

Lemma ro_markup_line line st :
  raises_only other_than_no_data (markup_line line st).
Proof.
  unfold markup_line, _parse_stockholm_line_gf, _parse_stockholm_line_gs,
    _parse_stockholm_line_gr, _parse_stockholm_line_gc.
  repeat first [apply ro_remove_newline | unfold other_than_no_data; ro_step].
Qed.

Lemma ro_data_pass fh d : raises_only other_than_no_data (data_pass fh d).
Proof.
  revert d. induction fh as [|line fh IH]; intros d; simpl; [apply ro_Ok|].
  apply ro_bind; [|done].
  destruct (is_data_line line); [apply ro_data | apply ro_Ok].
Qed.

Lemma ro_markup_pass fh st : raises_only other_than_no_data (markup_pass fh st).
Proof.
  revert st. induction fh as [|line fh IH]; intros st; simpl; [apply ro_Ok|].
  apply ro_bind; [apply ro_markup_line | done].
Qed.

Lemma ro_assemble {Seq} (ctor : string → _ → _ → string + Seq) keys d :
  raises_only other_than_no_data (assemble ctor keys d).
Proof.
  induction keys as [|key keys IH]; simpl; [apply ro_Ok|].
  unfold od_getitem, other_than_no_data in *. repeat ro_step. exact IH.
Qed.

(** ** The reader as a whole *)

Lemma data_pass_no_data fh d : data_lines fh = [] → data_pass fh d = Ok d.
Proof.
  unfold data_lines. induction fh as [|line fh IH]; simpl; [done|].
  destruct (is_data_line line); [done|]. intros H. run. by apply IH.
Qed.

(** C8, as the code has it. A stream without data lines is always
    rejected, and with "No data present in file" whenever its markup
    lines all parse (so for the empty stream); a markup line that is
    rejected comes first, since the emptiness test is the last step. A
    stream with a data line is never rejected with that error. *)
Theorem no_data_present_after_markup {Seq MSA}
    (ctor : string → option (gmap string string) →
            option (gmap string (list ascii)) → string + Seq)
    (tm : msa_args Seq → string + MSA) (fh : list string) :
  (data_lines fh = [] →
   (∃ e, _stockholm_to_tabular_msa ctor tm fh = Raise e) ∧
   (∀ st, markup_pass fh (mkLocals ∅ [] ∅) = Ok st →
      _stockholm_to_tabular_msa ctor tm fh
      = Raise (StockholmFormatError No_data_present)) ∧
   (∀ e, markup_pass fh (mkLocals ∅ [] ∅) = Raise e →
      _stockholm_to_tabular_msa ctor tm fh = Raise e)) ∧
  (fh = [] →
   _stockholm_to_tabular_msa ctor tm fh
   = Raise (StockholmFormatError No_data_present)) ∧
  (data_lines fh ≠ [] →
   _stockholm_to_tabular_msa ctor tm fh
   ≠ Raise (StockholmFormatError No_data_present)).
Proof.
  assert (Hcompleted : data_lines fh = [] →
    ∀ st, markup_pass fh (mkLocals ∅ [] ∅) = Ok st →
      _stockholm_to_tabular_msa ctor tm fh
      = Raise (StockholmFormatError No_data_present)).
  { intros Hno st Hst. apply reader_collect_Raise. unfold collect.
    rewrite (data_pass_no_data _ _ Hno). run. rewrite Hst. simpl.
    apply markup_pass_keys in Hst. simpl in Hst.
    apply fmap_nil_inv in Hst. by rewrite Hst. }
  assert (Hstopped : data_lines fh = [] →
    ∀ e, markup_pass fh (mkLocals ∅ [] ∅) = Raise e →
      _stockholm_to_tabular_msa ctor tm fh = Raise e).
  { intros Hno e He. apply reader_collect_Raise.
    apply collect_markup_pass_Raise with []; [|done].
    by apply data_pass_no_data. }
  split; [|split].
  - intros Hno. split; [|split; [by apply Hcompleted | by apply Hstopped]].
    destruct (markup_pass fh (mkLocals ∅ [] ∅)) as [st|e] eqn:Hst.
    + eexists. by apply (Hcompleted Hno st).
    + exists e. by apply Hstopped.
  - by intros ->.
  - intros Hsome Hraise. unfold _stockholm_to_tabular_msa in Hraise.
    destruct (collect ctor fh) as [args|e] eqn:Hc; simpl in Hraise.
    + by destruct (tm args).
    + inversion Hraise; subst. clear Hraise. unfold collect in Hc.
      destruct (data_pass fh []) as [d|e] eqn:Hd; simpl in Hc;
        [|inversion Hc; subst; by apply (ro_data_pass fh [] _ Hd)].
      destruct (markup_pass fh (mkLocals ∅ d ∅)) as [st|e] eqn:Hst;
        simpl in Hc; [|inversion Hc; subst; by apply (ro_markup_pass _ _ _ Hst)].
      destruct (assemble ctor (od_keys (l_dna_data st)) (l_dna_data st))
        as [seqs|e] eqn:Hs; simpl in Hc;
        [|inversion Hc; subst; by apply (ro_assemble _ _ _ _ Hs)].
      destruct seqs as [|s seqs]; [|done].
      apply assemble_length in Hs. simpl in Hs.
      apply markup_pass_keys in Hst. simpl in Hst. rewrite Hst in Hs.
      apply data_pass_init in Hd as (_ & Hk & _). rewrite Hk in Hs.
      unfold data_labels in Hs. rewrite length_fmap in Hs.
      destruct (data_lines fh); [done | simpl in Hs; lia].
Qed.

Lemma gs_unknown line d marker name feature rest :
  _remove_newline (Py.split_sep " " 3 line)
  = Ok (marker :: name :: feature :: rest) →
  name ∉ od_keys d →
  _parse_stockholm_line_gs line d
  = Raise (StockholmFormatError (Nonexistent_data name)).
Proof.
  intros Hf Hk. unfold _parse_stockholm_line_gs. rewrite Hf. run.
  apply od_get_None in Hk. by rewrite Hk.
Qed.

Lemma gr_unknown line d marker name feature rest :
  Py.split line = marker :: name :: feature :: rest →
  name ∉ od_keys d →
  _parse_stockholm_line_gr line d
  = Raise (StockholmFormatError (Nonexistent_data name)).
Proof.
  intros Hs Hk. unfold _parse_stockholm_line_gr.
  rewrite _remove_newline_split by (by rewrite Hs). rewrite Hs. run.
  apply od_get_None in Hk. by rewrite Hk.
Qed.

Lemma gs_known line d marker name feature rest :
  _remove_newline (Py.split_sep " " 3 line)
  = Ok (marker :: name :: feature :: rest) →
  name ∈ od_keys d →
  raises_only other_than_nonexistent (_parse_stockholm_line_gs line d).
Proof.
  intros Hf [r Hr]%od_get_Some. unfold _parse_stockholm_line_gs.
  rewrite Hf. run. rewrite Hr. unfold other_than_nonexistent.
  repeat ro_step.
Qed.

Lemma gr_known line d marker name feature rest :
  Py.split line = marker :: name :: feature :: rest →
  name ∈ od_keys d →
  raises_only other_than_nonexistent (_parse_stockholm_line_gr line d).
Proof.
  intros Hs [r Hr]%od_get_Some. unfold _parse_stockholm_line_gr.
  rewrite _remove_newline_split by (by rewrite Hs). rewrite Hs. run.
  rewrite Hr. unfold other_than_nonexistent. repeat ro_step.
Qed.

(** C1, as the code has it. A GS or GR line (with its label and feature
    fields) whose label is on no data line of the stream makes the
    reader fail, and with "Markup line references nonexistent data" once
    the second pass has come to that line. A label that is on a data
    line anywhere in the stream, before or after the markup line, never
    draws that error from the line: the first pass has read every data
    line before the second pass starts. *)
Theorem markup_label_looked_up_after_data_pass {Seq MSA}
    (ctor : string → option (gmap string string) →
            option (gmap string (list ascii)) → string + Seq)
    (tm : msa_args Seq → string + MSA)
    (pre post : list string) (line marker name feature : string)
    (rest : list string) :
  (Py.startswith line "#=GS" = true ∧
   _remove_newline (Py.split_sep " " 3 line)
   = Ok (marker :: name :: feature :: rest)) ∨
  (Py.startswith line "#=GR" = true ∧
   Py.split line = marker :: name :: feature :: rest) →
  (name ∉ data_labels (pre ++ line :: post) →
   (∃ e, _stockholm_to_tabular_msa ctor tm (pre ++ line :: post) = Raise e) ∧
   ∀ d st, data_pass (pre ++ line :: post) [] = Ok d →
     markup_pass pre (mkLocals ∅ d ∅) = Ok st →
     _stockholm_to_tabular_msa ctor tm (pre ++ line :: post)
     = Raise (StockholmFormatError (Nonexistent_data name))) ∧
  (name ∈ data_labels (pre ++ line :: post) →
   ∀ d st, data_pass (pre ++ line :: post) [] = Ok d →
     markup_pass pre (mkLocals ∅ d ∅) = Ok st →
     ∀ n, markup_line line st
          ≠ Raise (StockholmFormatError (Nonexistent_data n))).
Proof.
  intros Hline.
  assert (Hkeys : ∀ d st, data_pass (pre ++ line :: post) [] = Ok d →
    markup_pass pre (mkLocals ∅ d ∅) = Ok st →
    od_keys (l_dna_data st) = data_labels (pre ++ line :: post)).
  { intros d st Hd Hst. apply markup_pass_keys in Hst. simpl in Hst.
    apply data_pass_init in Hd as (_ & Hk & _). congruence. }
  assert (Hreached : name ∉ data_labels (pre ++ line :: post) →
    ∀ d st, data_pass (pre ++ line :: post) [] = Ok d →
    markup_pass pre (mkLocals ∅ d ∅) = Ok st →
    _stockholm_to_tabular_msa ctor tm (pre ++ line :: post)
    = Raise (StockholmFormatError (Nonexistent_data name))).
  { intros Hno d st Hd Hst. rewrite <- (Hkeys d st Hd Hst) in Hno.
    apply reader_collect_Raise.
    eapply collect_markup_pass_Raise; [exact Hd|].
    rewrite markup_pass_app, Hst. run.
    destruct Hline as [[Hgs Hf]|[Hgr Hs]].
    - by rewrite (markup_line_gs _ _ Hgs), (gs_unknown _ _ _ _ _ _ Hf Hno).
    - by rewrite (markup_line_gr _ _ Hgr), (gr_unknown _ _ _ _ _ _ Hs Hno). }
  split.
  - intros Hno. split; [|by apply Hreached].
    destruct (data_pass (pre ++ line :: post) []) as [d|e] eqn:Hd.
    + destruct (markup_pass pre (mkLocals ∅ d ∅)) as [st|e] eqn:Hst.
      * eexists. by apply (Hreached Hno d st).
      * exists e. apply reader_collect_Raise.
        eapply collect_markup_pass_Raise; [exact Hd|].
        by rewrite markup_pass_app, Hst.
    + exists e. by apply reader_collect_Raise, collect_data_pass_Raise.
  - intros Hyes d st Hd Hst n Hraise.
    rewrite <- (Hkeys d st Hd Hst) in Hyes.
    destruct Hline as [[Hgs Hf]|[Hgr Hs]].
    + rewrite (markup_line_gs _ _ Hgs) in Hraise.
      destruct (_parse_stockholm_line_gs line (l_dna_data st)) as [d'|e]
        eqn:He; [done|]. simpl in Hraise. inversion Hraise; subst.
      by apply (gs_known _ _ _ _ _ _ Hf Hyes _ He n).
    + rewrite (markup_line_gr _ _ Hgr) in Hraise.
      destruct (_parse_stockholm_line_gr line (l_dna_data st)) as [d'|e]
        eqn:He; [done|]. simpl in Hraise. inversion Hraise; subst.
      by apply (gr_known _ _ _ _ _ _ Hs Hyes _ He n).
Qed.

(** ** Concrete streams *)

(** A GS line placed before the data line it names is accepted: the
    reader returns the alignment, with the feature on the sequence. *)
Lemma gs_before_its_data_line_accepted :
  Py.startswith ("#=GS seq1 AC O83071" +:+ LF) "#=GS" = true ∧
  is_data_line ("seq1 ACGU" +:+ LF) = true ∧
  _stockholm_to_tabular_msa plain_constructor plain_TabularMSA
    ["#=GS seq1 AC O83071" +:+ LF; "seq1 ACGU" +:+ LF]
  = Ok (mkArgs [("ACGU", Some {[ "AC" := "O83071" ]}, None)] ∅ None
          ["seq1"]).
Proof. repeat split; vm_compute; reflexivity. Qed.

(** A GF line of two fields raises an IndexError, not a
    StockholmFormatError; and a GF line of two fields after a double
    space is parsed without any error, the feature key being empty. *)
Lemma gf_two_fields_no_parse_error :
  (Py.startswith ("#=GF AC" +:+ LF) "#=GF" = true ∧
   length (Py.split ("#=GF AC" +:+ LF)) = 2 ∧
   _parse_stockholm_line_gf ("#=GF AC" +:+ LF) ∅ = Raise IndexError ∧
   ¬ ∃ msg, _parse_stockholm_line_gf ("#=GF AC" +:+ LF) ∅
            = Raise (StockholmFormatError msg)) ∧
  (Py.startswith ("#=GF  x" +:+ LF) "#=GF" = true ∧
   length (Py.split ("#=GF  x" +:+ LF)) = 2 ∧
   _parse_stockholm_line_gf ("#=GF  x" +:+ LF) ∅ = Ok {[ "" := "x" ]}).
Proof.
  assert (H : _parse_stockholm_line_gf ("#=GF AC" +:+ LF) ∅ = Raise IndexError)
    by (vm_compute; reflexivity).
  repeat split; try (vm_compute; reflexivity).
  intros [msg Hmsg]. rewrite H in Hmsg. discriminate.
Qed.

(** A stream without data lines whose second GC line repeats the first
    is rejected for the duplicate, not for being empty. *)
Lemma no_data_lines_other_error :
  data_lines ["#=GC SS_cons .AAA" +:+ LF; "#=GC SS_cons <<>>" +:+ LF] = [] ∧
  _stockholm_to_tabular_msa plain_constructor plain_TabularMSA
    ["#=GC SS_cons .AAA" +:+ LF; "#=GC SS_cons <<>>" +:+ LF]
  = Raise (StockholmFormatError (Duplicate_GC_label "SS_cons")) ∧
  _stockholm_to_tabular_msa plain_constructor plain_TabularMSA
    ["#=GC SS_cons .AAA" +:+ LF; "#=GC SS_cons <<>>" +:+ LF]
  ≠ Raise (StockholmFormatError No_data_present).
Proof.
  assert (H : _stockholm_to_tabular_msa plain_constructor plain_TabularMSA
    ["#=GC SS_cons .AAA" +:+ LF; "#=GC SS_cons <<>>" +:+ LF]
    = Raise (StockholmFormatError (Duplicate_GC_label "SS_cons")))
    by (vm_compute; reflexivity).
  split; [reflexivity|]. split; [exact H|]. rewrite H. discriminate.
Qed.

(** ** The theorems at concrete inputs *)

Lemma sniffer_first_line_signature_witness :
  (_stockholm_sniffer ["# STOCKHOLM 1.0" +:+ LF; "seq1 ACGU" +:+ LF]).1 = true ∧
  (_stockholm_sniffer ["# STOCKHOLM" +:+ LF; "seq1 ACGU" +:+ LF]).1 = false.
Proof.
  split.
  - destruct (sniffer_first_line_signature
                ["# STOCKHOLM 1.0" +:+ LF; "seq1 ACGU" +:+ LF])
      as ([_ H] & _).
    apply H. exists ("# STOCKHOLM 1.0" +:+ LF), ["seq1 ACGU" +:+ LF].
    split; reflexivity.
  - destruct (sniffer_first_line_signature
                ["# STOCKHOLM" +:+ LF; "seq1 ACGU" +:+ LF])
      as (_ & _ & _ & H & _).
    apply (H _ _ eq_refl). vm_compute. lia.
Defined.

Lemma data_line_total_iff_two_fields_witness :
  is_data_line ("seq1" +:+ LF) = true ∧ Py.split ("seq1" +:+ LF) = ["seq1"] ∧
  _parse_stockholm_line_data ("seq1" +:+ LF) [] = Raise IndexError.
Proof.
  split; [reflexivity|]. split; [reflexivity|].
  destruct (data_line_total_iff_two_fields ("seq1" +:+ LF)) as (_ & H & _).
  apply (H "seq1"); [reflexivity | reflexivity | apply not_elem_of_nil].
Defined.

Lemma duplicate_data_label_rejected_witness :
  Py.split ("seq1 UUUU" +:+ LF) = ["seq1"; "UUUU"] ∧
  data_pass ["seq1 ACGU" +:+ LF] [] = Ok [("seq1", mkSeqData "ACGU" ∅ ∅)] ∧
  _stockholm_to_tabular_msa plain_constructor plain_TabularMSA
    (["seq1 ACGU" +:+ LF] ++ ("seq1 UUUU" +:+ LF) :: ["//" +:+ LF])
  = Raise (StockholmFormatError (Multiple_data_lines "seq1")).
Proof.
  split; [reflexivity|]. split; [reflexivity|].
  destruct (duplicate_data_label_rejected plain_constructor plain_TabularMSA
              ("seq1 UUUU" +:+ LF) [("seq1", mkSeqData "ACGU" ∅ ∅)]
              "seq1" ["UUUU"]) as (_ & _ & H & _); [reflexivity|].
  apply H; [reflexivity | reflexivity | vm_compute; left].
Defined.

Lemma duplicate_gc_label_rejected_witness :
  Py.split ("#=GC SS_cons <<>>" +:+ LF) = ["#=GC"; "SS_cons"; "<<>>"] ∧
  _parse_stockholm_line_gc ("#=GC SS_cons <<>>" +:+ LF)
    {[ "SS_cons" := Py.list_of_str ".AAA" ]}
  = Raise (StockholmFormatError (Duplicate_GC_label "SS_cons")) ∧
  _parse_stockholm_line_gc ("#=GC SS_cons <<>>" +:+ LF) ∅
  = Ok {[ "SS_cons" := Py.list_of_str "<<>>" ]}.
Proof.
  split; [reflexivity|]. split.
  - apply (duplicate_gc_label_rejected plain_constructor plain_TabularMSA
             ("#=GC SS_cons <<>>" +:+ LF) _ "#=GC" "SS_cons" ["<<>>"]);
      [reflexivity | vm_compute; eauto].
  - destruct (duplicate_gc_label_rejected plain_constructor plain_TabularMSA
             ("#=GC SS_cons <<>>" +:+ LF) ∅ "#=GC" "SS_cons" ["<<>>"])
      as (_ & H & _ & _); [reflexivity|].
    apply (H eq_refl "<<>>" []). reflexivity.
Defined.

Lemma gf_same_key_concatenated_witness :
  (∃ md1 md2,
     _parse_stockholm_line_gf ("#=GF RT The role" +:+ LF) ∅ = Ok md1 ∧
     md1 !! "RT" = Some "The role" ∧
     _parse_stockholm_line_gf ("#=GF RT of the pseudoknot" +:+ LF) md1
     = Ok md2 ∧
     md2 !! "RT" = Some ("The role" +:+ " " +:+ "of the pseudoknot") ∧
     ∀ k, k ≠ "RT" → md2 !! k = (∅ : gmap string string) !! k) ∧
  ∃ args,
    collect plain_constructor
      (["# STOCKHOLM 1.0" +:+ LF] ++ ("#=GF RT The role" +:+ LF)
       :: ["#=GF RN [1]" +:+ LF] ++ ("#=GF RT of the pseudoknot" +:+ LF)
       :: ["seq1 ACGU" +:+ LF]) = Ok args ∧
    a_metadata args !! "RT" = Some ("The role" +:+ " " +:+ "of the pseudoknot").
Proof.
  destruct (gf_same_key_concatenated ("#=GF RT The role" +:+ LF)
              ("#=GF RT of the pseudoknot" +:+ LF) "#=GF" "#=GF" "RT"
              "The role" "of the pseudoknot" [] []) as [H1 H2];
    [reflexivity | reflexivity |].
  split; [apply (H1 ∅); reflexivity|].
  eexists. split; [vm_compute; reflexivity|].
  apply (H2 plain_Seq plain_constructor ["# STOCKHOLM 1.0" +:+ LF]
           ["#=GF RN [1]" +:+ LF] ["seq1 ACGU" +:+ LF]);
    [reflexivity | reflexivity | | vm_compute; reflexivity].
  repeat constructor; vm_compute; discriminate.
Defined.

Lemma gf_too_few_fields_witness :
  length (Py.split_sep " " 2 ("#=GF AC" +:+ LF)) < 3 ∧
  _parse_stockholm_line_gf ("#=GF AC" +:+ LF) ∅ = Raise IndexError.
Proof.
  split; [vm_compute; lia|].
  apply (gf_too_few_fields ("#=GF AC" +:+ LF) ∅). vm_compute. lia.
Defined.

Lemma gs_writes_only_into_empty_metadata_witness :
  _parse_stockholm_line_gs ("#=GS seq1 DR PDB; 1abc" +:+ LF)
    [("seq1", mkSeqData "ACGU" {[ "AC" := "O83071" ]} ∅)]
  = Ok [("seq1", mkSeqData "ACGU" {[ "AC" := "O83071" ]} ∅)] ∧
  ∃ d', _parse_stockholm_line_gs ("#=GS seq1 AC O83071" +:+ LF)
          [("seq1", mkSeqData "ACGU" ∅ ∅)] = Ok d' ∧
        od_get "seq1" d' = Some (mkSeqData "ACGU" {[ "AC" := "O83071" ]} ∅).
Proof.
  split.
  - apply (gs_writes_only_into_empty_metadata
             ("#=GS seq1 DR PDB; 1abc" +:+ LF) _ "#=GS" "seq1" "DR"
             ["PDB; 1abc"] (mkSeqData "ACGU" {[ "AC" := "O83071" ]} ∅));
      [reflexivity | reflexivity |]. simpl. apply insert_non_empty.
  - destruct (gs_writes_only_into_empty_metadata
                ("#=GS seq1 AC O83071" +:+ LF)
                [("seq1", mkSeqData "ACGU" ∅ ∅)] "#=GS" "seq1" "AC"
                ["O83071"] (mkSeqData "ACGU" ∅ ∅)) as (_ & H);
      [reflexivity | reflexivity |].
    destruct (H eq_refl "O83071" [] eq_refl) as (d' & Hd' & Hget & _).
    exists d'. split; [exact Hd' | exact Hget].
Defined.

Lemma markup_label_looked_up_after_data_pass_witness :
  ("seq2" ∉ data_labels
              ([] ++ ("#=GS seq2 AC O83071" +:+ LF) :: ["seq1 ACGU" +:+ LF])) ∧
  _stockholm_to_tabular_msa plain_constructor plain_TabularMSA
    ([] ++ ("#=GS seq2 AC O83071" +:+ LF) :: ["seq1 ACGU" +:+ LF])
  = Raise (StockholmFormatError (Nonexistent_data "seq2")).
Proof.
  assert (Hno : "seq2" ∉ data_labels
            ([] ++ ("#=GS seq2 AC O83071" +:+ LF) :: ["seq1 ACGU" +:+ LF])).
  { vm_compute. intros H. apply list_elem_of_In in H.
    destruct H as [H|[]]. discriminate H. }
  split; [exact Hno|].
  destruct (markup_label_looked_up_after_data_pass plain_constructor
              plain_TabularMSA [] ["seq1 ACGU" +:+ LF]
              ("#=GS seq2 AC O83071" +:+ LF) "#=GS" "seq2" "AC" ["O83071"])
    as (H & _); [left; split; reflexivity|].
  destruct (H Hno) as (_ & Hreached).
  apply (Hreached [("seq1", mkSeqData "ACGU" ∅ ∅)]
           (mkLocals ∅ [("seq1", mkSeqData "ACGU" ∅ ∅)] ∅)); reflexivity.
Defined.

Lemma sequence_order_is_first_appearance_witness :
  ∃ args,
    collect plain_constructor
      ["#=GS b AC x" +:+ LF; "a ACGU" +:+ LF; "#=GC SS_cons <<>>" +:+ LF;
       "b UUUU" +:+ LF; "//" +:+ LF] = Ok args ∧
    a_index args = ["a"; "b"].
Proof.
  destruct (sequence_order_is_first_appearance plain_constructor
              plain_TabularMSA
              ["#=GS b AC x" +:+ LF; "a ACGU" +:+ LF;
               "#=GC SS_cons <<>>" +:+ LF; "b UUUU" +:+ LF; "//" +:+ LF]
              (mkArgs [("ACGU", None, None); ("UUUU", Some {[ "AC" := "x" ]}, None)]
                 ∅ (Some {[ "SS_cons" := Py.list_of_str "<<>>" ]}) ["a"; "b"]))
    as (args & Hc & _ & Hi & _); [vm_compute; reflexivity|].
  exists args. split; [exact Hc | exact Hi].
Defined.

Lemma no_data_present_after_markup_witness :
  _stockholm_to_tabular_msa plain_constructor plain_TabularMSA
    ["# STOCKHOLM 1.0" +:+ LF; "#=GF ID UPSK" +:+ LF; "//" +:+ LF]
  = Raise (StockholmFormatError No_data_present).
Proof.
  destruct (no_data_present_after_markup plain_constructor plain_TabularMSA
              ["# STOCKHOLM 1.0" +:+ LF; "#=GF ID UPSK" +:+ LF; "//" +:+ LF])
    as (H & _ & _).
  destruct (H eq_refl) as (_ & Hst & _).
  apply (Hst (mkLocals {[ "ID" := "UPSK" ]} [] ∅)). reflexivity.
Defined.


(** * Further properties of the reader *)

(** ** The two passes read disjoint sets of lines *)

Lemma data_pass_data_lines fh d : data_pass fh d = data_pass (data_lines fh) d.
Proof.
  unfold data_lines. revert d.
  induction fh as [|line fh IH]; intros d; simpl; [done|].
  destruct (is_data_line line) eqn:Hl; simpl.
  - rewrite Hl. destruct (_parse_stockholm_line_data line d); run; [apply IH | done].
  - run. apply IH.
Qed.

Lemma markup_line_unmarked line st :
  is_markup_line line = false → markup_line line st = Ok st.
Proof.
  unfold is_markup_line, markup_line.
  intros [[[-> ->]%orb_false_elim ->]%orb_false_elim ->]%orb_false_elim.
  done.
Qed.

Lemma markup_pass_markup_lines fh st :
  markup_pass fh st = markup_pass (markup_lines fh) st.
Proof.
  unfold markup_lines. revert st.
  induction fh as [|line fh IH]; intros st; simpl; [done|].
  destruct (is_markup_line line) eqn:Hl; simpl.
  - destruct (markup_line line st); run; [apply IH | done].
  - rewrite (markup_line_unmarked _ _ Hl). run. apply IH.
Qed.

Lemma collect_lines {Seq} (ctor : string → _ → _ → string + Seq) fh fh' :
  data_lines fh = data_lines fh' → markup_lines fh = markup_lines fh' →
  collect ctor fh = collect ctor fh'.
Proof.
  intros Hd Hm. unfold collect.
  rewrite (data_pass_data_lines fh), (data_pass_data_lines fh'), Hd.
  destruct (data_pass (data_lines fh') []) as [d|e]; run; [|done].
  by rewrite (markup_pass_markup_lines fh), (markup_pass_markup_lines fh'), Hm.
Qed.

Lemma marked_not_data line :
  is_markup_line line = true → is_data_line line = false.
Proof.
  unfold is_markup_line, is_data_line. intros H.
  assert (Hh : Py.startswith line "#" = true); [|by rewrite Hh].
  repeat apply orb_prop in H as [H|H];
    apply startswith_inv in H as [rest ->]; unfold Py.startswith;
    cbn [String.append String.prefix]; simpl;
    first [reflexivity | apply prefix_nil].
Qed.

(** X1. The result of the reader, value or exception, is a function of
    the list of data lines and of the list of markup lines of the
    stream: two streams with the same data lines in the same order and
    the same markup lines in the same order are read alike, however the
    two kinds are interleaved; and no line belongs to both lists. *)
Theorem reader_reads_data_and_markup_apart {Seq MSA}
    (ctor : string → option (gmap string string) →
            option (gmap string (list ascii)) → string + Seq)
    (tm : msa_args Seq → string + MSA) (fh fh' : list string) :
  data_lines fh = data_lines fh' → markup_lines fh = markup_lines fh' →
  _stockholm_to_tabular_msa ctor tm fh = _stockholm_to_tabular_msa ctor tm fh' ∧
  ∀ line, line ∈ data_lines fh → line ∉ markup_lines fh.
Proof.
  intros Hd Hm. split.
  - unfold _stockholm_to_tabular_msa. by rewrite (collect_lines ctor fh fh').
  - unfold data_lines, markup_lines. intros line Hdl Hml.
    apply list_elem_of_In, List.filter_In in Hdl as [_ Hdl].
    apply list_elem_of_In, List.filter_In in Hml as [_ Hml].
    apply marked_not_data in Hml. congruence.
Qed.

(** X2. A line that is neither a data line nor a line with one of the
    four markers has no effect at all: the stream is read as if the line
    were not there. The header line and the [//] line are such lines, so
    the reader does not ask for the header and does not stop at [//]. *)
Theorem reader_skips_other_lines {Seq MSA}
    (ctor : string → option (gmap string string) →
            option (gmap string (list ascii)) → string + Seq)
    (tm : msa_args Seq → string + MSA) (pre post : list string)
    (line : string) :
  is_data_line line = false → is_markup_line line = false →
  _stockholm_to_tabular_msa ctor tm (pre ++ line :: post)
  = _stockholm_to_tabular_msa ctor tm (pre ++ post).
Proof.
  intros Hd Hm. unfold _stockholm_to_tabular_msa.
  rewrite (collect_lines ctor (pre ++ line :: post) (pre ++ post)); [done|..].
  - unfold data_lines. rewrite !List.filter_app. simpl. by rewrite Hd.
  - unfold markup_lines. rewrite !List.filter_app. simpl. by rewrite Hm.
Qed.

(** ** Removing the newline *)

Lemma append_nil_l s : EmptyString +:+ s = s.
Proof. reflexivity. Qed.

Lemma append_cons a s t : String a s +:+ t = String a (s +:+ t).
Proof. reflexivity. Qed.

Lemma rstrip_tail s : ∃ n, s = Py.rstrip "010" s +:+ newlines n.
Proof.
  induction s as [|a s [n IH]]; [by exists 0|]. simpl.
  destruct (Py.rstrip "010" s) as [|b r] eqn:Hr.
  - rewrite append_nil_l in IH.
    destruct (Ascii.eqb_spec a "010") as [->|Hne].
    + exists (S n). rewrite append_nil_l. simpl. by rewrite <- IH.
    + exists n. rewrite append_cons, append_nil_l. by rewrite <- IH.
  - exists n. rewrite append_cons. by rewrite <- IH.
Qed.

Lemma rstrip_no_trailing s s' : Py.rstrip "010" s ≠ s' +:+ LF.
Proof.
  revert s'. induction s as [|a s IH]; intros s'; simpl.
  - destruct s'; [rewrite append_nil_l | rewrite append_cons]; done.
  - destruct (Py.rstrip "010" s) as [|b r] eqn:Hr.
    + destruct (Ascii.eqb_spec a "010") as [->|Hne].
      * destruct s'; [rewrite append_nil_l | rewrite append_cons]; done.
      * destruct s' as [|a' s'']; [rewrite append_nil_l | rewrite append_cons].
        -- unfold LF. congruence.
        -- intros [= _ Heq]. by apply (IH s'').
    + destruct s' as [|a' s'']; [rewrite append_nil_l | rewrite append_cons].
      * unfold LF. congruence.
      * intros [= _ Heq]. by apply (IH s'').
Qed.

Lemma rstrip_id s : Py.contains "010" s = false → Py.rstrip "010" s = s.
Proof.
  induction s as [|a s IH]; simpl; [done|].
  intros [Ha Hs]%orb_false_elim. rewrite (IH Hs), Ha. by destruct s.
Qed.

(** X3. [_remove_newline] fails on the empty list only. On any other
    list it changes the last field alone, taking every line feed off
    its end (not just one) and none from elsewhere: the last field is
    what is returned followed by line feeds, and what is returned does
    not end in a line feed. The fields of [line.split()] hold no line
    feed, so there (for GR and GC lines) the call changes nothing. *)
Theorem remove_newline_strips_last_field :
  _remove_newline [] = Raise IndexError ∧
  (∀ line, Py.split line ≠ [] →
     _remove_newline (Py.split line) = Ok (Py.split line)) ∧
  ∀ (init : list string) (lst : string),
    _remove_newline (init ++ [lst]) = Ok (init ++ [Py.rstrip "010" lst]) ∧
    (∃ n, lst = Py.rstrip "010" lst +:+ newlines n) ∧
    ∀ s, Py.rstrip "010" lst ≠ s +:+ LF.
Proof.
  split; [done|]. split; [apply _remove_newline_split|]. intros init lst.
  split; [|split; [apply rstrip_tail | apply rstrip_no_trailing]].
  unfold _remove_newline. rewrite length_app. simpl.
  replace (length init + 1 - 1) with (length init) by lia.
  rewrite (subscript_Ok _ _ lst) by (by rewrite list_lookup_middle). simpl.
  destruct (Py.contains "010" lst) eqn:Hc.
  - f_equal. rewrite insert_app_r_alt by lia.
    by replace (length init - length init) with 0 by lia.
  - by rewrite (rstrip_id _ Hc).
Qed.

(** ** Data lines *)

Lemma all_space_split s : Py.all_space s = false → Py.split s ≠ [].
Proof.
  induction s as [|c s IH]; simpl; [done|].
  destruct (Py.isspace_char c); simpl; [exact IH|]. intros _.
  destruct s as [|c' s']; [done|].
  destruct (Py.isspace_char c'); [done|].
  by destruct (Py.split (String c' s')).
Qed.

(** X4. Every data line but the empty string (which no file iteration
    yields, and which the classifier takes for a data line too) has a
    first field, so the data line parser always finds the label; it
    raises an IndexError exactly when the line has that one field only
    and the label is new. *)
Theorem data_line_has_label (line : string) :
  is_data_line line = true →
  (line ≠ EmptyString →
   (∃ name rest, Py.split line = name :: rest) ∧
   ∀ d, _parse_stockholm_line_data line d = Raise IndexError ↔
        length (Py.split line) = 1 ∧ label line ∉ od_keys d) ∧
  (line = EmptyString → ∀ d, _parse_stockholm_line_data line d = Raise IndexError).
Proof.
  intros Hdl. split; [|by intros ->].
  intros Hne.
  assert (Hs : Py.split line ≠ []).
  { apply all_space_split. unfold is_data_line in Hdl.
    apply negb_true_iff in Hdl.
    apply orb_false_elim in Hdl as [_ Hsp]. by destruct line. }
  destruct (Py.split line) as [|name [|tok rest]] eqn:Hsplit; [done|..].
  - split; [eauto|]. intros d. split.
    + intros Hraise. split; [done|]. intros Hin.
      rewrite (data_line_seen _ _ _ _ Hsplit) in Hraise; [done|].
      unfold label in Hin. by rewrite Hsplit in Hin.
    + intros [_ Hfresh]. apply (data_line_one_field _ _ name Hsplit).
      unfold label in Hfresh. by rewrite Hsplit in Hfresh.
  - split; [eauto|]. intros d. split; [|by intros [[=] _]].
    intros Hraise.
    destruct (data_line_two_fields line d) as [[d' Hd']|Hd'];
      [rewrite Hsplit; simpl; lia | congruence..].
Qed.

(** X5. A data line with a new label adds one record after all the
    others: the label with the second field as its sequence and with
    empty metadata of both kinds. Fields after the second are ignored,
    and the records already present keep their places and contents. *)
Theorem data_line_appends_record (line : string) (d : OrderedDict)
    (name tok : string) (rest : list string) :
  Py.split line = name :: tok :: rest → name ∉ od_keys d →
  _parse_stockholm_line_data line d = Ok (d ++ [(name, mkSeqData tok ∅ ∅)]) ∧
  od_get name (d ++ [(name, mkSeqData tok ∅ ∅)]) = Some (mkSeqData tok ∅ ∅) ∧
  ∀ k r, od_get k d = Some r →
         od_get k (d ++ [(name, mkSeqData tok ∅ ∅)]) = Some r.
Proof.
  intros Hs Hfresh. split; [|split].
  - unfold _parse_stockholm_line_data. rewrite Hs. run.
    apply od_mem_false in Hfresh as Hm. rewrite Hm. simpl.
    by rewrite od_set_fresh.
  - rewrite <- (od_set_fresh _ _ _ Hfresh). apply od_get_set_eq.
  - intros k r. apply od_get_app_l.
Qed.

(** ** The GR line parser *)

(** X6. A GR line that names a record of [dna_data]: a feature the
    record already has in its positional metadata raises "Found
    duplicate GR label", before the token is looked at; a new feature
    is stored with the characters of the token, one by one, and the
    sequence, the metadata, the other features, the other records and
    the order of the labels stay as they were; a new feature without a
    token raises an IndexError. *)
Theorem gr_stores_new_feature
    (line : string) (d : OrderedDict) (marker name feature : string)
    (rest : list string) (r : SeqData) :
  Py.split line = marker :: name :: feature :: rest →
  od_get name d = Some r →
  (is_Some (pos_metadata r !! feature) →
   _parse_stockholm_line_gr line d
   = Raise (StockholmFormatError (Duplicate_GR_label feature name))) ∧
  (pos_metadata r !! feature = None → ∀ tok rest', rest = tok :: rest' →
     ∃ d', _parse_stockholm_line_gr line d = Ok d' ∧
       od_get name d'
       = Some (mkSeqData (seq r) (metadata r)
                 (<[feature := Py.list_of_str tok]> (pos_metadata r))) ∧
       od_keys d' = od_keys d ∧
       ∀ k, k ≠ name → od_get k d' = od_get k d) ∧
  (pos_metadata r !! feature = None → rest = [] →
   _parse_stockholm_line_gr line d = Raise IndexError).
Proof.
  intros Hs Hr. unfold _parse_stockholm_line_gr.
  rewrite _remove_newline_split by (by rewrite Hs). rewrite Hs. run.
  rewrite Hr. split; [|split].
  - by intros [v ->].
  - intros -> tok rest' ->. simpl. eexists. split; [done|].
    split; [apply od_get_set_eq|].
    split; [apply od_set_keys, od_get_Some; eauto|].
    intros k Hne. by apply od_get_set_ne.
  - by intros -> ->.
Qed.

(** ** What is kept of the rest of a line *)

(** X7. In a GF line and in a GS line written with single spaces, what
    follows the feature key is kept as it is up to the line feed, inner
    and leading spaces included: it is the value stored (after the old
    value and a space when the GF key is already there; only into empty
    metadata for GS). *)
Theorem rest_of_line_kept_verbatim (key value : string) :
  Py.contains " " key = false → Py.contains "010" value = false →
  (∀ md : gmap string string,
     _parse_stockholm_line_gf ("#=GF " +:+ key +:+ " " +:+ value +:+ LF) md
     = Ok (<[key := match md !! key with
                    | Some old => old +:+ " " +:+ value
                    | None => value
                    end]> md)) ∧
  (∀ (d : OrderedDict) name r,
     Py.contains " " name = false → od_get name d = Some r →
     metadata r = ∅ →
     _parse_stockholm_line_gs
       ("#=GS " +:+ name +:+ " " +:+ key +:+ " " +:+ value +:+ LF) d
     = Ok (od_set name (mkSeqData (seq r) {[key := value]} (pos_metadata r)) d)).
Proof.
  intros Hk Hv. split.
  - intros md. unfold _parse_stockholm_line_gf.
    rewrite (gf_line_fields _ _ Hk Hv). run. by destruct (md !! key).
  - intros d name r Hn Hr He. unfold _parse_stockholm_line_gs.
    rewrite (gs_line_fields _ _ _ Hn Hk Hv). run. rewrite Hr, He.
    unfold falsy. rewrite bool_decide_eq_true_2 by done. simpl.
    by rewrite insert_empty.
Qed.

(** ** The exceptions of the reader *)

Section Exceptions.

Context (P : exn → Prop).
Hypothesis P_parse : ∀ msg, P (StockholmFormatError msg).
Hypothesis P_collaborator : ∀ s, P (CollaboratorError s).

Ltac raises :=
  repeat first
    [ apply ro_Ok
    | apply ro_Raise; apply P_parse
    | apply ro_call; apply P_collaborator
    | apply ro_subscript; assumption
    | apply ro_bind; [|intros ?]
    | match goal with
      | |- raises_only _ (match ?x with _ => _ end) => destruct x
      end ].

(** Without any condition on the fields, an IndexError is possible. *)
Lemma raises_data line d :
  P IndexError → raises_only P (_parse_stockholm_line_data line d).
Proof. intros HI. unfold _parse_stockholm_line_data. raises. Qed.

Lemma raises_markup_line line st :
  P IndexError → raises_only P (markup_line line st).
Proof.
  intros HI.
  unfold markup_line, _parse_stockholm_line_gf, _parse_stockholm_line_gs,
    _parse_stockholm_line_gr, _parse_stockholm_line_gc, _remove_newline.
  raises.
Qed.

(** With its fields, each parser raises a parse error or nothing. *)
Lemma raises_data_fields line d :
  2 ≤ length (Py.split line) →
  raises_only P (_parse_stockholm_line_data line d).
Proof.
  intros H. destruct (data_line_two_fields line d H) as [[d' ->]| ->]; raises.
Qed.

Lemma raises_gf_fields line md :
  3 ≤ length (Py.split_sep " " 2 line) →
  raises_only P (_parse_stockholm_line_gf line md).
Proof.
  intros H.
  destruct (_remove_newline_nonempty (Py.split_sep " " 2 line))
    as [fields Hf]; [apply split_sep_nonempty|].
  pose proof (_remove_newline_length _ _ Hf) as Hlen.
  destruct (gf_fields_ge line md fields Hf) as [md' ->]; [lia | raises].
Qed.

Lemma raises_gs_fields line d :
  4 ≤ length (Py.split_sep " " 3 line) →
  raises_only P (_parse_stockholm_line_gs line d).
Proof.
  intros H.
  destruct (_remove_newline_nonempty (Py.split_sep " " 3 line))
    as [fields Hf]; [apply split_sep_nonempty|].
  pose proof (_remove_newline_length _ _ Hf) as Hlen.
  unfold _parse_stockholm_line_gs. rewrite Hf.
  destruct fields as [|m [|n [|f [|v rest]]]]; simpl in Hlen; try lia.
  run. raises.
Qed.

Lemma raises_gr_fields line d :
  4 ≤ length (Py.split line) →
  raises_only P (_parse_stockholm_line_gr line d).
Proof.
  intros H. unfold _parse_stockholm_line_gr.
  rewrite _remove_newline_split by (intros Hn; rewrite Hn in H; simpl in H; lia).
  destruct (Py.split line) as [|m [|n [|f [|v rest]]]]; simpl in H; try lia.
  run. raises.
Qed.

Lemma raises_gc_fields line pm :
  3 ≤ length (Py.split line) →
  raises_only P (_parse_stockholm_line_gc line pm).
Proof.
  intros H. unfold _parse_stockholm_line_gc.
  rewrite _remove_newline_split by (intros Hn; rewrite Hn in H; simpl in H; lia).
  destruct (Py.split line) as [|m [|f [|v rest]]]; simpl in H; try lia.
  run. raises.
Qed.

Lemma raises_markup_line_fields line st :
  enough_fields line = true → raises_only P (markup_line line st).
Proof.
  unfold enough_fields. intros H.
  destruct (is_data_line line) eqn:Hdl.
  { rewrite markup_line_unmarked; [apply ro_Ok|].
    destruct (is_markup_line line) eqn:Hm; [|done].
    apply marked_not_data in Hm. congruence. }
  unfold markup_line.
  repeat match type of H with
         | (if ?b then _ else _) = _ => destruct b
         end; apply Nat.leb_le in H || clear H.
  - apply ro_bind; [by apply raises_gf_fields | intros ?; apply ro_Ok].
  - apply ro_bind; [by apply raises_gs_fields | intros ?; apply ro_Ok].
  - apply ro_bind; [by apply raises_gr_fields | intros ?; apply ro_Ok].
  - apply ro_bind; [by apply raises_gc_fields | intros ?; apply ro_Ok].
  - apply ro_Ok.
Qed.

Lemma raises_data_pass (Q : string → Prop) fh d :
  (∀ line d, Q line → is_data_line line = true →
     raises_only P (_parse_stockholm_line_data line d)) →
  Forall Q fh → raises_only P (data_pass fh d).
Proof.
  intros HQ Hfh. revert d.
  induction Hfh as [|line fh Hline Hfh IH]; intros d; simpl; [apply ro_Ok|].
  apply ro_bind; [|done].
  destruct (is_data_line line) eqn:Hdl; [by apply HQ | apply ro_Ok].
Qed.

Lemma raises_markup_pass (Q : string → Prop) fh st :
  (∀ line st, Q line → raises_only P (markup_line line st)) →
  Forall Q fh → raises_only P (markup_pass fh st).
Proof.
  intros HQ Hfh. revert st.
  induction Hfh as [|line fh Hline Hfh IH]; intros st; simpl; [apply ro_Ok|].
  apply ro_bind; [by apply HQ | done].
Qed.

(** The keys the third loop subscripts with are keys of the dictionary. *)
Lemma raises_assemble {Seq} (ctor : string → _ → _ → string + Seq) keys d :
  keys ⊆ od_keys d → raises_only P (assemble ctor keys d).
Proof.
  induction keys as [|key keys IH]; intros Hsub; simpl; [apply ro_Ok|].
  assert (Hkey : key ∈ od_keys d) by (apply Hsub; left).
  apply od_get_Some in Hkey as [r Hr]. unfold od_getitem. rewrite Hr.
  run. raises. apply IH. intros k Hk. apply Hsub. by right.
Qed.

Lemma raises_reader {Seq MSA} (ctor : string → _ → _ → string + Seq)
    (tm : msa_args Seq → string + MSA) (Q : string → Prop) fh :
  (∀ line d, Q line → is_data_line line = true →
     raises_only P (_parse_stockholm_line_data line d)) →
  (∀ line st, Q line → raises_only P (markup_line line st)) →
  Forall Q fh → raises_only P (_stockholm_to_tabular_msa ctor tm fh).
Proof.
  intros HQd HQm Hfh. unfold _stockholm_to_tabular_msa, collect.
  apply ro_bind; [|intros ?; by apply ro_call].
  apply ro_bind; [by apply raises_data_pass with Q | intros d].
  apply ro_bind; [by apply raises_markup_pass with Q | intros st].
  apply ro_bind; [by apply raises_assemble | intros seqs].
  destruct seqs; [by apply ro_Raise | apply ro_Ok].
Qed.

End Exceptions.

(** X8. Whatever the stream, the reader raises a StockholmFormatError, an
    IndexError or what a collaborator raised, and never a KeyError: the
    GS and GR parsers test the label before they subscript [dna_data]
    with it, and the third loop subscripts with the keys of [dna_data]
    alone. *)
Theorem reader_never_raises_KeyError {Seq MSA}
    (ctor : string → option (gmap string string) →
            option (gmap string (list ascii)) → string + Seq)
    (tm : msa_args Seq → string + MSA) (fh : list string) (e : exn) :
  _stockholm_to_tabular_msa ctor tm fh = Raise e →
  (e = IndexError ∨ parse_or_collaborator_error e) ∧ ∀ k, e ≠ KeyError k.
Proof.
  intros H.
  assert (He : e = IndexError ∨ parse_or_collaborator_error e).
  { revert e H.
    apply (raises_reader (λ e, e = IndexError ∨ parse_or_collaborator_error e))
      with (Q := λ _, True).
    - intros msg. right. left. eauto.
    - intros s. right. right. eauto.
    - intros line d _ _. apply raises_data; [|by left].
      intros msg. right. left. eauto.
    - intros line st _. apply raises_markup_line; [|by left].
      intros msg. right. left. eauto.
    - by apply Forall_true. }
  split; [done|]. intros k ->.
  destruct He as [|[[? ?]|[? ?]]]; discriminate.
Qed.

(** X9. When every line of the stream has the fields its parser
    subscripts, the reader raises no IndexError either: whatever it
    raises is a StockholmFormatError of the module or comes from a
    collaborator. *)
Theorem reader_with_fields_raises_parse_errors {Seq MSA}
    (ctor : string → option (gmap string string) →
            option (gmap string (list ascii)) → string + Seq)
    (tm : msa_args Seq → string + MSA) (fh : list string) (e : exn) :
  Forall (λ line, enough_fields line = true) fh →
  _stockholm_to_tabular_msa ctor tm fh = Raise e →
  parse_or_collaborator_error e ∧ e ≠ IndexError.
Proof.
  intros Hfh H.
  assert (He : parse_or_collaborator_error e).
  { revert e H.
    apply (raises_reader parse_or_collaborator_error)
      with (Q := λ line, enough_fields line = true); [..|done].
    - intros msg. left. eauto.
    - intros s. right. eauto.
    - intros line d Hl Hdl. apply raises_data_fields.
      + intros msg. left. eauto.
      + unfold enough_fields in Hl. rewrite Hdl in Hl. by apply Nat.leb_le.
    - intros line st Hl. apply raises_markup_line_fields; [|done].
      intros msg. left. eauto. }
  split; [done|]. intros ->. destruct He as [[? ?]|[? ?]]; discriminate.
Qed.

(** ** From the dictionary to the sequences *)

Section Sequences.

Context {Seq : Type}.
Variable ctor :
  string → option (gmap string string) → option (gmap string (list ascii))
  → string + Seq.

(** The sequence at a place of the list is built from the record of the
    label at that place. *)
Lemma assemble_lookup keys d seqs i k :
  assemble ctor keys d = Ok seqs → keys !! i = Some k →
  ∃ r s, od_get k d = Some r ∧ seqs !! i = Some s ∧
    call (ctor (seq r) (none_if_falsy (metadata r))
            (none_if_falsy (pos_metadata r))) = Ok s.
Proof.
  revert seqs i. induction keys as [|key keys IH]; intros seqs i; [done|].
  simpl. intros H Hi.
  apply bind_Ok_inv in H as (r & Hr & H).
  apply bind_Ok_inv in H as (s & Hs & H).
  apply bind_Ok_inv in H as (seqs' & Hseqs & H). inversion H; subst.
  destruct i as [|i]; simpl in Hi.
  - inversion Hi; subst. exists r, s. unfold od_getitem in Hr.
    destruct (od_get k d); by inversion Hr.
  - destruct (IH _ _ Hseqs Hi) as (r' & s' & ? & ? & ?). by exists r', s'.
Qed.

(** When every constructor call succeeds, so does the third loop. *)
Lemma assemble_accepts keys d seqs :
  Forall2 (λ k s, ∃ r, od_get k d = Some r ∧
             ctor (seq r) (none_if_falsy (metadata r))
               (none_if_falsy (pos_metadata r)) = inr s) keys seqs →
  assemble ctor keys d = Ok seqs.
Proof.
  induction 1 as [|k s keys seqs (r & Hr & Hs) _ IH]; simpl; [done|].
  unfold od_getitem. rewrite Hr. run. rewrite Hs. simpl. by rewrite IH.
Qed.

End Sequences.

Lemma data_pass_accepts fh d :
  NoDup (od_keys d ++ data_labels fh) →
  Forall (λ line, 2 ≤ length (Py.split line)) (data_lines fh) →
  data_pass fh d = Ok (d ++ (record_of <$> data_lines fh)).
Proof.
  unfold data_labels, data_lines. revert d.
  induction fh as [|line fh IH]; intros d; simpl.
  - intros _ _. by rewrite app_nil_r.
  - destruct (is_data_line line); simpl.
    + intros Hnd [Hline Hfh]%Forall_cons.
      assert (Hfresh : label line ∉ od_keys d).
      { apply NoDup_app in Hnd as (_ & Hdisj & _). intros Hin.
        apply (Hdisj _ Hin). left. }
      destruct (data_line_two_fields line d Hline) as [[d' Hd']|Hd'].
      * rewrite Hd'. run. apply data_line_Ok in Hd' as (_ & _ & ->).
        rewrite IH; [by rewrite <- app_assoc | | done].
        unfold od_keys in *. rewrite fmap_app. simpl.
        by rewrite <- app_assoc.
      * exfalso. unfold _parse_stockholm_line_data, label in *.
        destruct (Py.split line) as [|name rest]; [simpl in Hline; lia|].
        simpl in *. apply od_mem_false in Hfresh.
        unfold mbind, result_bind, subscript in Hd'. simpl in Hd'.
        rewrite Hfresh in Hd'. simpl in Hd'.
        destruct rest; simpl in *; [lia | done].
    + intros Hnd Hfh. run. by apply IH.
Qed.

(** X10. A stream with data lines and no markup line, whose data lines
    have their two fields and distinct labels, is accepted whenever the
    constructor accepts each sequence: every sequence is built from its
    token with metadata None and positional metadata None, and
    TabularMSA gets these sequences in file order, an empty dict (not
    None) as metadata, None as positional metadata and the labels as
    index. *)
Theorem data_only_stream_accepted {Seq MSA}
    (ctor : string → option (gmap string string) →
            option (gmap string (list ascii)) → string + Seq)
    (tm : msa_args Seq → string + MSA) (fh : list string) (seqs : list Seq) :
  markup_lines fh = [] → data_lines fh ≠ [] → NoDup (data_labels fh) →
  Forall (λ line, 2 ≤ length (Py.split line)) (data_lines fh) →
  Forall2 (λ line s, ctor (token line) None None = inr s)
    (data_lines fh) seqs →
  _stockholm_to_tabular_msa ctor tm fh
  = call (tm (mkArgs seqs ∅ None (data_labels fh))).
Proof.
  intros Hm Hne Hnd Hfields Hctor.
  unfold _stockholm_to_tabular_msa, collect.
  rewrite (data_pass_accepts fh []) by done. run.
  rewrite markup_pass_markup_lines, Hm. simpl.
  assert (Hkeys : od_keys (record_of <$> data_lines fh) = data_labels fh).
  { unfold od_keys, data_labels. by rewrite <- list_fmap_compose. }
  rewrite Hkeys.
  rewrite (assemble_accepts ctor _ _ seqs).
  - simpl. destruct seqs as [|s seqs].
    + apply Forall2_nil_inv_r in Hctor. contradiction.
    + done.
  - unfold data_labels. apply Forall2_fmap_l.
    eapply Forall2_impl with
      (P := λ line s, line ∈ data_lines fh ∧
                      ctor (token line) None None = inr s).
    + clear -Hctor. induction Hctor as [|line s lines seqs H _ IH];
        constructor.
      * split; [left | done].
      * eapply Forall2_impl; [exact IH|]. intros l s' [Hl Hs].
        split; [by right | done].
    + intros line s [Hin Hs]. exists (mkSeqData (token line) ∅ ∅).
      split; [|done].
      apply od_get_elem_of; [by rewrite Hkeys|].
      apply list_elem_of_fmap. by exists line.
Qed.

(** ** Column metadata *)

Lemma gc_keeps_value line pm pm' k v :
  _parse_stockholm_line_gc line pm = Ok pm' →
  pm !! k = Some v → pm' !! k = Some v.
Proof.
  unfold _parse_stockholm_line_gc. intros H Hk.
  apply bind_Ok_inv in H as (fields & _ & H).
  apply bind_Ok_inv in H as (feature & _ & H).
  destruct (pm !! feature) eqn:Hf; [done|].
  apply bind_Ok_inv in H as (tok & _ & H). inversion H; subst.
  rewrite lookup_insert_ne; [done | congruence].
Qed.

Lemma markup_line_keeps_value line st st' k v :
  markup_line line st = Ok st' →
  l_positional_metadata st !! k = Some v →
  l_positional_metadata st' !! k = Some v.
Proof.
  unfold markup_line. intros H Hk.
  repeat match type of H with
         | (if ?b then _ else _) = _ => destruct b
         end.
  1-3: apply bind_Ok_inv in H as (? & _ & H); by inversion H.
  - apply bind_Ok_inv in H as (pm' & Hgc & H). inversion H; subst; simpl.
    by apply gc_keeps_value with line (l_positional_metadata st).
  - inversion H. by subst.
Qed.

Lemma markup_pass_keeps_value fh st st' k v :
  markup_pass fh st = Ok st' →
  l_positional_metadata st !! k = Some v →
  l_positional_metadata st' !! k = Some v.
Proof.
  revert st. induction fh as [|line fh IH]; intros st; simpl.
  - by intros [= <-].
  - intros H Hk. apply bind_Ok_inv in H as (st1 & H1 & H).
    apply (IH _ H). by apply markup_line_keeps_value with line st.
Qed.

Lemma markup_pass_no_gc fh st st' :
  Forall (λ line, Py.startswith line "#=GC" = false) fh →
  markup_pass fh st = Ok st' →
  l_positional_metadata st' = l_positional_metadata st.
Proof.
  intros Hfh. revert st.
  induction Hfh as [|line fh Hline Hfh IH]; intros st; simpl.
  - by intros [= <-].
  - intros H. apply bind_Ok_inv in H as (st1 & H1 & H).
    rewrite (IH _ H). unfold markup_line in H1. rewrite Hline in H1.
    repeat match type of H1 with
           | (if ?b then _ else _) = _ => destruct b
           end;
      try (apply bind_Ok_inv in H1 as (? & _ & H1)); by inversion H1.
Qed.

(** X11. In a stream that is accepted, every GC line has a feature and a
    token, and the positional metadata handed to TabularMSA is a dict
    that maps the feature to the characters of the token; it is None
    when the stream has no GC line. *)
Theorem gc_lines_make_column_metadata {Seq}
    (ctor : string → option (gmap string string) →
            option (gmap string (list ascii)) → string + Seq)
    (fh : list string) (args : msa_args Seq) :
  collect ctor fh = Ok args →
  (∀ pre line post, fh = pre ++ line :: post →
     Py.startswith line "#=GC" = true →
     ∃ marker feature tok rest pm,
       Py.split line = marker :: feature :: tok :: rest ∧
       a_positional_metadata args = Some pm ∧
       pm !! feature = Some (Py.list_of_str tok)) ∧
  (Forall (λ line, Py.startswith line "#=GC" = false) fh →
   a_positional_metadata args = None).
Proof.
  intros Hc. apply collect_Ok in Hc as (d & st & seqs & _ & Hst & _ & _ & ->).
  simpl. split.
  - intros pre line post -> Hgc.
    rewrite markup_pass_app in Hst.
    apply bind_Ok_inv in Hst as (st1 & _ & Hst). simpl in Hst.
    apply bind_Ok_inv in Hst as (st2 & Hline & Hst).
    rewrite (markup_line_gc _ _ Hgc) in Hline.
    apply bind_Ok_inv in Hline as (pm2 & Hpm2 & Hline). inversion Hline; subst.
    clear Hline. unfold _parse_stockholm_line_gc in Hpm2.
    apply bind_Ok_inv in Hpm2 as (fields & Hfields & Hpm2).
    assert (Hne : Py.split line ≠ []).
    { intros Hn. by rewrite Hn in Hfields. }
    rewrite (_remove_newline_split _ Hne) in Hfields. inversion Hfields; subst.
    unfold subscript in Hpm2.
    destruct (Py.split line) as [|marker [|feature rest]]; try done.
    simpl in Hpm2. destruct (l_positional_metadata st1 !! feature); [done|].
    destruct rest as [|tok rest]; [done|]. simpl in Hpm2.
    inversion Hpm2; subst. clear Hpm2.
    exists marker, feature, tok, rest, (l_positional_metadata st).
    split; [done|].
    assert (Hin : l_positional_metadata st !! feature
                  = Some (Py.list_of_str tok)).
    { apply (markup_pass_keeps_value _ _ _ _ _ Hst). simpl.
      apply lookup_insert_eq. }
    split; [|done]. unfold none_if_falsy, falsy.
    rewrite bool_decide_eq_false_2; [done|].
    intros He. rewrite He in Hin. by rewrite lookup_empty in Hin.
  - intros Hno. rewrite (markup_pass_no_gc _ _ _ Hno Hst). done.
Qed.

(** ** Sequence metadata *)

Lemma gs_metadata_kept line d d' k r :
  _parse_stockholm_line_gs line d = Ok d' → od_get k d = Some r →
  (match _remove_newline (Py.split_sep " " 3 line) with
   | Ok fields => fields !! 1
   | Raise _ => None
   end) ≠ Some k ∨ metadata r ≠ ∅ →
  ∃ r', od_get k d' = Some r' ∧ metadata r' = metadata r.
Proof.
  unfold _parse_stockholm_line_gs. intros H Hr Hor.
  destruct (_remove_newline (Py.split_sep " " 3 line)) as [fields|]; [|done].
  simpl in H. unfold subscript in H.
  destruct (fields !! 1) as [name|] eqn:Hname; [|done]. simpl in H.
  destruct (fields !! 2) as [feature|]; [|done]. simpl in H.
  destruct (od_get name d) as [rn|] eqn:Hrn; [|done].
  destruct (falsy (metadata rn)) eqn:Hfalsy; [|inversion H; subst; eauto].
  destruct (fields !! 3) as [v|]; [|done]. simpl in H. inversion H; subst.
  destruct (decide (name = k)) as [->|Hne].
  - exfalso. rewrite Hr in Hrn. inversion Hrn; subst.
    apply bool_decide_eq_true in Hfalsy. by destruct Hor.
  - rewrite (od_get_set_ne _ _ _ _ Hne). eauto.
Qed.

Lemma gr_metadata_kept line d d' k r :
  _parse_stockholm_line_gr line d = Ok d' → od_get k d = Some r →
  ∃ r', od_get k d' = Some r' ∧ metadata r' = metadata r.
Proof.
  unfold _parse_stockholm_line_gr. intros H Hr.
  apply bind_Ok_inv in H as (fields & _ & H).
  apply bind_Ok_inv in H as (name & _ & H).
  apply bind_Ok_inv in H as (feature & _ & H).
  destruct (od_get name d) as [rn|] eqn:Hrn; [|done].
  destruct (pos_metadata rn !! feature); [done|].
  apply bind_Ok_inv in H as (v & _ & H). inversion H; subst.
  destruct (decide (name = k)) as [->|Hne].
  - rewrite od_get_set_eq. rewrite Hr in Hrn. inversion Hrn; subst. eauto.
  - rewrite (od_get_set_ne _ _ _ _ Hne). eauto.
Qed.

Lemma markup_line_metadata_kept line st st' k r :
  markup_line line st = Ok st' → od_get k (l_dna_data st) = Some r →
  gs_label line ≠ Some k ∨ metadata r ≠ ∅ →
  ∃ r', od_get k (l_dna_data st') = Some r' ∧ metadata r' = metadata r.
Proof.
  unfold markup_line, gs_label. intros H Hr Hor.
  destruct (Py.startswith line "#=GF").
  { apply bind_Ok_inv in H as (? & _ & H). inversion H; subst. eauto. }
  destruct (Py.startswith line "#=GS").
  { apply bind_Ok_inv in H as (d' & Hd' & H). inversion H; subst. simpl.
    by apply gs_metadata_kept with line (l_dna_data st). }
  destruct (Py.startswith line "#=GR").
  { apply bind_Ok_inv in H as (d' & Hd' & H). inversion H; subst. simpl.
    by apply gr_metadata_kept with line (l_dna_data st). }
  destruct (Py.startswith line "#=GC").
  { apply bind_Ok_inv in H as (? & _ & H). inversion H; subst. eauto. }
  inversion H; subst. eauto.
Qed.

Lemma markup_pass_metadata_kept fh st st' k r :
  markup_pass fh st = Ok st' → od_get k (l_dna_data st) = Some r →
  Forall (λ line, gs_label line ≠ Some k) fh ∨ metadata r ≠ ∅ →
  ∃ r', od_get k (l_dna_data st') = Some r' ∧ metadata r' = metadata r.
Proof.
  revert st r. induction fh as [|line fh IH]; intros st r; simpl.
  - intros [= <-]. eauto.
  - intros H Hr Hor. apply bind_Ok_inv in H as (st1 & H1 & H).
    destruct (markup_line_metadata_kept _ _ _ _ _ H1 Hr) as (r1 & Hr1 & Hm1).
    { destruct Hor as [Hfh|Hne]; [left | by right].
      by apply Forall_cons in Hfh as [? _]. }
    destruct (IH _ _ H Hr1) as (r' & Hr' & Hm').
    { rewrite Hm1. destruct Hor as [Hfh|Hne]; [left | by right].
      by apply Forall_cons in Hfh as [_ ?]. }
    exists r'. split; [done | congruence].
Qed.

(** The records of the first pass have empty metadata of both kinds. *)
Lemma od_get_record_of lines k r :
  od_get k (record_of <$> lines) = Some r →
  metadata r = ∅ ∧ pos_metadata r = ∅.
Proof.
  induction lines as [|line lines IH]; simpl; [done|].
  case_decide; [by intros [= <-] | exact IH].
Qed.

(** X12. In a stream that is accepted, the sequence of a label that no
    GS line names is built with metadata None; the sequence of a label
    that GS lines name is built with a metadata dict of one entry, the
    feature and the value of the first of these lines, whatever the GS
    lines after it say. *)
Theorem first_gs_line_is_the_metadata {Seq}
    (ctor : string → option (gmap string string) →
            option (gmap string (list ascii)) → string + Seq)
    (fh : list string) (args : msa_args Seq) (k : string) :
  collect ctor fh = Ok args →
  (Forall (λ line, gs_label line ≠ Some k) fh →
   ∀ i, a_index args !! i = Some k →
     ∃ s tok p, a_seqs args !! i = Some s ∧
       call (ctor tok None p) = Ok s) ∧
  (∀ pre line post marker feature rest,
     fh = pre ++ line :: post →
     Forall (λ line, gs_label line ≠ Some k) pre →
     Py.startswith line "#=GS" = true →
     _remove_newline (Py.split_sep " " 3 line)
     = Ok (marker :: k :: feature :: rest) →
     ∃ value rest', rest = value :: rest' ∧ k ∈ a_index args ∧
       ∀ i, a_index args !! i = Some k →
         ∃ s tok p, a_seqs args !! i = Some s ∧
           call (ctor tok (Some {[feature := value]}) p) = Ok s).
Proof.
  intros Hc.
  apply collect_Ok in Hc as (d & st & seqs & Hd & Hst & Hs & _ & ->). simpl.
  apply data_pass_init in Hd as (Hd & _ & _).
  assert (Hbuilt : ∀ i, od_keys (l_dna_data st) !! i = Some k →
    ∃ r s, od_get k (l_dna_data st) = Some r ∧ seqs !! i = Some s ∧
      call (ctor (seq r) (none_if_falsy (metadata r))
              (none_if_falsy (pos_metadata r))) = Ok s).
  { intros i Hi. by apply (assemble_lookup ctor _ _ _ _ _ Hs). }
  assert (Hstart : ∀ r, od_get k d = Some r → metadata r = ∅).
  { intros r Hr. rewrite Hd in Hr. by apply od_get_record_of in Hr as [? _]. }
  clear Hd. split.
  - intros Hno i Hi. destruct (Hbuilt i Hi) as (r & s & Hr & Hsi & Hcall).
    assert (Hk : k ∈ od_keys d).
    { pose proof (markup_pass_keys _ _ _ Hst) as Hkeys. simpl in Hkeys.
      rewrite <- Hkeys. apply od_get_Some. eauto. }
    apply od_get_Some in Hk as [r0 Hr0].
    destruct (markup_pass_metadata_kept _ _ _ k r0 Hst Hr0) as (r' & Hr' & Hm);
      [by left|].
    rewrite Hr in Hr'. inversion Hr'; subst r'.
    rewrite Hm, (Hstart _ Hr0) in Hcall.
    exists s, (seq r), (none_if_falsy (pos_metadata r)). done.
  - intros pre line post marker feature rest -> Hpre Hgs Hfields.
    rewrite markup_pass_app in Hst.
    apply bind_Ok_inv in Hst as (st1 & Hst1 & Hst). simpl in Hst.
    apply bind_Ok_inv in Hst as (st2 & Hline & Hst).
    rewrite (markup_line_gs _ _ Hgs) in Hline.
    apply bind_Ok_inv in Hline as (d2 & Hd2 & Hline). inversion Hline; subst.
    clear Hline. simpl in Hst.
    unfold _parse_stockholm_line_gs in Hd2. rewrite Hfields in Hd2.
    unfold mbind, result_bind, subscript in Hd2. simpl in Hd2.
    destruct (od_get k (l_dna_data st1)) as [r1|] eqn:Hr1; [|done].
    assert (Hk : k ∈ od_keys d).
    { pose proof (markup_pass_keys _ _ _ Hst1) as Hkeys. simpl in Hkeys.
      rewrite <- Hkeys. apply od_get_Some. eauto. }
    apply od_get_Some in Hk as [r0 Hr0].
    destruct (markup_pass_metadata_kept _ _ _ k r0 Hst1 Hr0) as (r' & Hr' & Hm);
      [by left|].
    simpl in Hr'. rewrite Hr1 in Hr'. inversion Hr'; subst r'.
    rewrite (Hstart _ Hr0) in Hm. rewrite Hm in Hd2.
    unfold falsy in Hd2. rewrite bool_decide_eq_true_2 in Hd2 by done.
    destruct rest as [|value rest']; [done|]. simpl in Hd2.
    inversion Hd2; subst d2. clear Hd2.
    exists value, rest'. split; [done|].
    destruct (markup_pass_metadata_kept _ _ _ k _ Hst (od_get_set_eq _ _ _))
      as (r2 & Hr2 & Hm'); [right; simpl; apply insert_non_empty|].
    split; [apply od_get_Some; eauto|]. intros i Hi.
    destruct (Hbuilt i Hi) as (r & s & Hr & Hsi & Hcall).
    rewrite Hr in Hr2. inversion Hr2; subst r2. simpl in Hm'.
    rewrite insert_empty in Hm'. rewrite Hm' in Hcall.
    exists s, (seq r), (none_if_falsy (pos_metadata r)). split; [done|].
    unfold none_if_falsy at 1 in Hcall. unfold falsy in Hcall.
    rewrite bool_decide_eq_false_2 in Hcall; [done|].
    apply (insert_non_empty (M := gmap string)).
Qed.

(** ** Positional metadata of a sequence *)

Lemma gs_pos_kept line d d' k r :
  _parse_stockholm_line_gs line d = Ok d' → od_get k d = Some r →
  ∃ r', od_get k d' = Some r' ∧ pos_metadata r' = pos_metadata r.
Proof.
  unfold _parse_stockholm_line_gs. intros H Hr.
  apply bind_Ok_inv in H as (fields & _ & H).
  apply bind_Ok_inv in H as (name & _ & H).
  apply bind_Ok_inv in H as (feature & _ & H).
  destruct (od_get name d) as [rn|] eqn:Hrn; [|done].
  destruct (falsy (metadata rn)); [|inversion H; subst; eauto].
  apply bind_Ok_inv in H as (v & _ & H). inversion H; subst.
  destruct (decide (name = k)) as [->|Hne].
  - rewrite od_get_set_eq. rewrite Hr in Hrn. inversion Hrn; subst. eauto.
  - rewrite (od_get_set_ne _ _ _ _ Hne). eauto.
Qed.

Lemma gr_pos_kept line d d' k r :
  _parse_stockholm_line_gr line d = Ok d' → od_get k d = Some r →
  ∃ r', od_get k d' = Some r' ∧
    (∀ f v, pos_metadata r !! f = Some v → pos_metadata r' !! f = Some v) ∧
    (Py.split line !! 1 ≠ Some k → pos_metadata r' = pos_metadata r).
Proof.
  unfold _parse_stockholm_line_gr. intros H Hr.
  apply bind_Ok_inv in H as (fields & Hfields & H).
  assert (Hne : Py.split line ≠ []).
  { intros Hn. by rewrite Hn in Hfields. }
  rewrite (_remove_newline_split _ Hne) in Hfields. inversion Hfields; subst.
  unfold subscript in H.
  destruct (Py.split line !! 1) as [name|]; [|done]. simpl in H.
  destruct (Py.split line !! 2) as [feature|]; [|done]. simpl in H.
  destruct (od_get name d) as [rn|] eqn:Hrn; [|done].
  destruct (pos_metadata rn !! feature) eqn:Hfeat; [done|].
  destruct (Py.split line !! 3) as [tok|]; [|done]. simpl in H.
  inversion H; subst.
  destruct (decide (name = k)) as [->|Hnk].
  - rewrite od_get_set_eq. rewrite Hr in Hrn. inversion Hrn; subst.
    eexists. split; [done|]. simpl. split; [|congruence].
    intros f v Hf. rewrite lookup_insert_ne; [done | congruence].
  - rewrite (od_get_set_ne _ _ _ _ Hnk). eauto.
Qed.

Lemma markup_line_pos_kept line st st' k r :
  markup_line line st = Ok st' → od_get k (l_dna_data st) = Some r →
  ∃ r', od_get k (l_dna_data st') = Some r' ∧
    (∀ f v, pos_metadata r !! f = Some v → pos_metadata r' !! f = Some v) ∧
    (gr_label line ≠ Some k → pos_metadata r' = pos_metadata r).
Proof.
  unfold markup_line, gr_label. intros H Hr.
  destruct (Py.startswith line "#=GF").
  { apply bind_Ok_inv in H as (? & _ & H). inversion H; subst. eauto. }
  destruct (Py.startswith line "#=GS").
  { apply bind_Ok_inv in H as (d' & Hd' & H). inversion H; subst. simpl.
    destruct (gs_pos_kept _ _ _ _ _ Hd' Hr) as (r' & Hr' & Hp).
    exists r'. rewrite Hp. eauto. }
  destruct (Py.startswith line "#=GR").
  { apply bind_Ok_inv in H as (d' & Hd' & H). inversion H; subst. simpl.
    by apply gr_pos_kept with (l_dna_data st). }
  destruct (Py.startswith line "#=GC").
  { apply bind_Ok_inv in H as (? & _ & H). inversion H; subst. eauto. }
  inversion H; subst. eauto.
Qed.

Lemma markup_pass_pos_kept fh st st' k r :
  markup_pass fh st = Ok st' → od_get k (l_dna_data st) = Some r →
  ∃ r', od_get k (l_dna_data st') = Some r' ∧
    (∀ f v, pos_metadata r !! f = Some v → pos_metadata r' !! f = Some v) ∧
    (Forall (λ line, gr_label line ≠ Some k) fh →
     pos_metadata r' = pos_metadata r).
Proof.
  revert st r. induction fh as [|line fh IH]; intros st r; simpl.
  - intros [= <-]. eauto.
  - intros H Hr. apply bind_Ok_inv in H as (st1 & H1 & H).
    destruct (markup_line_pos_kept _ _ _ _ _ H1 Hr) as (r1 & Hr1 & Hk1 & Hf1).
    destruct (IH _ _ H Hr1) as (r' & Hr' & Hk' & Hf').
    exists r'. split; [done|]. split; [by eauto|].
    intros [Hline Hfh]%Forall_cons. rewrite (Hf' Hfh). by apply Hf1.
Qed.

(** X13. In a stream that is accepted, the sequence of a label that no
    GR line names is built with positional metadata None; every GR line
    has a label, a feature and a token, its label is one of the index,
    and the sequence of that label is built with a positional metadata
    dict that maps the feature to the characters of the token. *)
Theorem gr_lines_make_positional_metadata {Seq}
    (ctor : string → option (gmap string string) →
            option (gmap string (list ascii)) → string + Seq)
    (fh : list string) (args : msa_args Seq) :
  collect ctor fh = Ok args →
  (∀ k, Forall (λ line, gr_label line ≠ Some k) fh →
   ∀ i, a_index args !! i = Some k →
     ∃ s tok m, a_seqs args !! i = Some s ∧
       call (ctor tok m None) = Ok s) ∧
  (∀ pre line post, fh = pre ++ line :: post →
     Py.startswith line "#=GR" = true →
     ∃ marker k feature tok rest,
       Py.split line = marker :: k :: feature :: tok :: rest ∧
       k ∈ a_index args ∧
       ∀ i, a_index args !! i = Some k →
         ∃ s sq m p, a_seqs args !! i = Some s ∧
           call (ctor sq m (Some p)) = Ok s ∧
           p !! feature = Some (Py.list_of_str tok)).
Proof.
  intros Hc.
  apply collect_Ok in Hc as (d & st & seqs & Hd & Hst & Hs & _ & ->). simpl.
  apply data_pass_init in Hd as (Hd & _ & _).
  assert (Hbuilt : ∀ k i, od_keys (l_dna_data st) !! i = Some k →
    ∃ r s, od_get k (l_dna_data st) = Some r ∧ seqs !! i = Some s ∧
      call (ctor (seq r) (none_if_falsy (metadata r))
              (none_if_falsy (pos_metadata r))) = Ok s).
  { intros k i Hi. by apply (assemble_lookup ctor _ _ _ _ _ Hs). }
  assert (Hstart : ∀ k r, od_get k d = Some r → pos_metadata r = ∅).
  { intros k r Hr. rewrite Hd in Hr. by apply od_get_record_of in Hr as [_ ?]. }
  clear Hd. split.
  - intros k Hno i Hi. destruct (Hbuilt k i Hi) as (r & s & Hr & Hsi & Hcall).
    assert (Hk : k ∈ od_keys d).
    { pose proof (markup_pass_keys _ _ _ Hst) as Hkeys. simpl in Hkeys.
      rewrite <- Hkeys. apply od_get_Some. eauto. }
    apply od_get_Some in Hk as [r0 Hr0].
    destruct (markup_pass_pos_kept _ _ _ k r0 Hst Hr0) as (r' & Hr' & _ & Hp).
    rewrite Hr in Hr'. inversion Hr'; subst r'.
    rewrite (Hp Hno), (Hstart _ _ Hr0) in Hcall.
    exists s, (seq r), (none_if_falsy (metadata r)). done.
  - intros pre line post -> Hgr.
    rewrite markup_pass_app in Hst.
    apply bind_Ok_inv in Hst as (st1 & Hst1 & Hst). simpl in Hst.
    apply bind_Ok_inv in Hst as (st2 & Hline & Hst).
    rewrite (markup_line_gr _ _ Hgr) in Hline.
    apply bind_Ok_inv in Hline as (d2 & Hd2 & Hline). inversion Hline; subst.
    clear Hline. simpl in Hst.
    unfold _parse_stockholm_line_gr in Hd2.
    apply bind_Ok_inv in Hd2 as (fields & Hfields & Hd2).
    assert (Hne : Py.split line ≠ []).
    { intros Hn. by rewrite Hn in Hfields. }
    rewrite (_remove_newline_split _ Hne) in Hfields. inversion Hfields; subst.
    clear Hfields. unfold subscript in Hd2.
    destruct (Py.split line) as [|marker [|k [|feature rest]]]; try done.
    simpl in Hd2.
    destruct (od_get k (l_dna_data st1)) as [r1|] eqn:Hr1; [|done].
    destruct (pos_metadata r1 !! feature); [done|].
    destruct rest as [|tok rest]; [done|]. simpl in Hd2.
    inversion Hd2; subst d2. clear Hd2.
    exists marker, k, feature, tok, rest. split; [done|].
    destruct (markup_pass_pos_kept _ _ _ k _ Hst (od_get_set_eq _ _ _))
      as (r2 & Hr2 & Hkept & _).
    split; [apply od_get_Some; eauto|]. intros i Hi.
    destruct (Hbuilt k i Hi) as (r & s & Hr & Hsi & Hcall).
    rewrite Hr in Hr2. inversion Hr2; subst r2.
    assert (Hin : pos_metadata r !! feature = Some (Py.list_of_str tok)).
    { apply Hkept. simpl. apply lookup_insert_eq. }
    exists s, (seq r), (none_if_falsy (metadata r)), (pos_metadata r).
    split; [done|]. split; [|done].
    unfold none_if_falsy at 2 in Hcall. unfold falsy in Hcall.
    rewrite bool_decide_eq_false_2 in Hcall; [done|].
    intros He. rewrite He in Hin. by rewrite lookup_empty in Hin.
Qed.

(** X14. A stream in which two GR lines give the same feature for the
    same label is never accepted (the first of the two lines stores the
    feature, nothing removes it, and the second raises "Found duplicate
    GR label" unless another line has failed before). *)
Theorem duplicate_gr_label_never_accepted {Seq MSA}
    (ctor : string → option (gmap string string) →
            option (gmap string (list ascii)) → string + Seq)
    (tm : msa_args Seq → string + MSA)
    (pre mid post : list string) (line1 line2 m1 m2 k feature : string)
    (r1 r2 : list string) :
  Py.startswith line1 "#=GR" = true → Py.startswith line2 "#=GR" = true →
  Py.split line1 = m1 :: k :: feature :: r1 →
  Py.split line2 = m2 :: k :: feature :: r2 →
  ∃ e, _stockholm_to_tabular_msa ctor tm
         (pre ++ line1 :: mid ++ line2 :: post) = Raise e.
Proof.
  intros Hgr1 Hgr2 Hs1 Hs2.
  destruct (_stockholm_to_tabular_msa ctor tm _) as [msa|e] eqn:Hread;
    [exfalso | by exists e].
  unfold _stockholm_to_tabular_msa in Hread.
  apply bind_Ok_inv in Hread as (args & Hc & _).
  apply collect_Ok in Hc as (d & st & seqs & _ & Hst & _).
  rewrite markup_pass_app in Hst.
  apply bind_Ok_inv in Hst as (st1 & _ & Hst). simpl in Hst.
  apply bind_Ok_inv in Hst as (st2 & Hline1 & Hst).
  rewrite markup_pass_app in Hst.
  apply bind_Ok_inv in Hst as (st3 & Hmid & Hst). simpl in Hst.
  apply bind_Ok_inv in Hst as (st4 & Hline2 & _).
  rewrite (markup_line_gr _ _ Hgr1) in Hline1.
  apply bind_Ok_inv in Hline1 as (d2 & Hd2 & Hline1).
  inversion Hline1; subst st2. clear Hline1.
  unfold _parse_stockholm_line_gr in Hd2.
  rewrite _remove_newline_split in Hd2 by (by rewrite Hs1).
  rewrite Hs1 in Hd2.
  unfold mbind, result_bind, subscript in Hd2. simpl in Hd2.
  destruct (od_get k (l_dna_data st1)) as [rk|]; [|done].
  destruct (pos_metadata rk !! feature); [done|].
  destruct r1 as [|tok r1]; [done|]. simpl in Hd2. inversion Hd2; subst d2.
  destruct (markup_pass_pos_kept _ _ _ k _ Hmid (od_get_set_eq _ _ _))
    as (r3 & Hr3 & Hkept & _).
  specialize (Hkept feature (Py.list_of_str tok)). simpl in Hkept.
  rewrite lookup_insert_eq in Hkept. specialize (Hkept eq_refl).
  rewrite (markup_line_gr _ _ Hgr2) in Hline2.
  apply bind_Ok_inv in Hline2 as (d4 & Hd4 & _).
  unfold _parse_stockholm_line_gr in Hd4.
  rewrite _remove_newline_split in Hd4 by (by rewrite Hs2).
  rewrite Hs2 in Hd4.
  unfold mbind, result_bind, subscript in Hd4. simpl in Hd4.
  rewrite Hr3, Hkept in Hd4. done.
Qed.

(** ** Alignment metadata *)

Lemma markup_line_gf_value line st st' K :
  markup_line line st = Ok st' →
  l_metadata st' !! K
  = match gf_value_for K line with
    | Some v => add_value (l_metadata st !! K) v
    | None => l_metadata st !! K
    end.
Proof.
  unfold markup_line, gf_value_for. intros H.
  destruct (Py.startswith line "#=GF").
  - apply bind_Ok_inv in H as (m & Hm & H). inversion H; subst; simpl.
    unfold _parse_stockholm_line_gf in Hm.
    destruct (_remove_newline (Py.split_sep " " 2 line)) as [fields|];
      [|done].
    simpl in Hm. unfold subscript in Hm.
    destruct (fields !! 1) as [k|]; [|done]. simpl in Hm.
    destruct (fields !! 2) as [v|]; [|done]. simpl in Hm.
    case_decide as Hk.
    + subst k. unfold add_value.
      destruct (l_metadata st !! K); inversion Hm; subst;
        by rewrite lookup_insert_eq.
    + destruct (l_metadata st !! k); inversion Hm; subst;
        by rewrite lookup_insert_ne.
  - repeat match type of H with
           | (if ?b then _ else _) = _ => destruct b
           end;
      try (apply bind_Ok_inv in H as (? & _ & H)); by inversion H.
Qed.

Lemma markup_pass_gf_values fh st st' K :
  markup_pass fh st = Ok st' →
  l_metadata st' !! K = foldl add_value (l_metadata st !! K) (gf_values K fh).
Proof.
  unfold gf_values. revert st.
  induction fh as [|line fh IH]; intros st; simpl.
  - by intros [= <-].
  - intros H. apply bind_Ok_inv in H as (st1 & H1 & H).
    rewrite (IH _ H), (markup_line_gf_value _ _ _ K H1).
    by destruct (gf_value_for K line).
Qed.

Lemma foldl_add_value v vs :
  foldl add_value (Some v) vs
  = Some (foldl (λ acc x, acc +:+ " " +:+ x) v vs).
Proof. revert v. induction vs as [|x vs IH]; intros v; simpl; [done | apply IH]. Qed.

(** X15. In a stream that is accepted, the metadata handed to TabularMSA
    maps each key to the values of all the GF lines with that key, in
    file order, joined by single spaces; a key of no GF line is not in
    it. *)
Theorem gf_lines_make_alignment_metadata {Seq}
    (ctor : string → option (gmap string string) →
            option (gmap string (list ascii)) → string + Seq)
    (fh : list string) (args : msa_args Seq) (K : string) :
  collect ctor fh = Ok args →
  a_metadata args !! K = join_space (gf_values K fh) ∧
  (a_metadata args !! K = None ↔ gf_values K fh = []).
Proof.
  intros Hc. apply collect_Ok in Hc as (d & st & seqs & _ & Hst & _ & _ & ->).
  simpl. apply (markup_pass_gf_values _ _ _ K) in Hst. simpl in Hst.
  rewrite lookup_empty in Hst.
  assert (Hj : l_metadata st !! K = join_space (gf_values K fh)).
  { rewrite Hst. destruct (gf_values K fh) as [|v vs]; simpl; [done|].
    apply foldl_add_value. }
  split; [done|]. rewrite Hj.
  by destruct (gf_values K fh).
Qed.

(** ** What an accepted stream looks like *)

Lemma data_pass_fields fh d d' :
  data_pass fh d = Ok d' →
  Forall (λ line, 2 ≤ length (Py.split line)) (data_lines fh).
Proof.
  unfold data_lines. revert d.
  induction fh as [|line fh IH]; intros d; simpl; [constructor|].
  intros H. apply bind_Ok_inv in H as (d1 & H1 & H).
  destruct (is_data_line line); [|by apply IH with d1].
  constructor; [|by apply IH with d1].
  by apply data_line_Ok in H1 as (? & _).
Qed.

(** X16. A stream is accepted only if it has a data line, its data
    lines have two fields or more and their labels are distinct; the
    reader then hands TabularMSA one sequence and one index label per
    data line. *)
Theorem accepted_stream_data_lines {Seq}
    (ctor : string → option (gmap string string) →
            option (gmap string (list ascii)) → string + Seq)
    (fh : list string) (args : msa_args Seq) :
  collect ctor fh = Ok args →
  data_lines fh ≠ [] ∧ NoDup (data_labels fh) ∧
  Forall (λ line, 2 ≤ length (Py.split line)) (data_lines fh) ∧
  length (a_seqs args) = length (data_lines fh) ∧
  length (a_index args) = length (data_lines fh).
Proof.
  intros Hc.
  apply collect_Ok in Hc as (d & st & seqs & Hd & Hst & Hs & Hne & ->). simpl.
  pose proof (data_pass_fields _ _ _ Hd) as Hfields.
  apply data_pass_init in Hd as (_ & Hk & Hnd).
  apply markup_pass_keys in Hst. simpl in Hst. rewrite Hk in Hst.
  apply assemble_length in Hs. rewrite Hst in Hs |- *.
  unfold data_labels in Hs |- *. rewrite length_fmap in Hs |- *.
  split; [|done]. intros Hno. rewrite Hno in Hs. by destruct seqs.
Qed.

(** ** Short GS and GR lines *)

(** X17. The GS and GR parsers subscript the label and the feature
    before they look the label up, and the value after: a line without
    a feature field raises an IndexError whether or not the label
    exists; a GS line without a value raises an IndexError when the
    metadata of its record is empty, and is accepted, changing nothing,
    when it is not. *)
Theorem short_gs_and_gr_lines (line : string) (d : OrderedDict) :
  (length (Py.split_sep " " 3 line) < 3 →
   _parse_stockholm_line_gs line d = Raise IndexError) ∧
  (Py.startswith line "#=GR" = true → length (Py.split line) < 3 →
   _parse_stockholm_line_gr line d = Raise IndexError) ∧
  (∀ marker name feature r,
     _remove_newline (Py.split_sep " " 3 line) = Ok [marker; name; feature] →
     od_get name d = Some r →
     (metadata r = ∅ → _parse_stockholm_line_gs line d = Raise IndexError) ∧
     (metadata r ≠ ∅ → _parse_stockholm_line_gs line d = Ok d)).
Proof.
  split; [|split].
  - intros Hlen.
    destruct (_remove_newline_nonempty (Py.split_sep " " 3 line))
      as [fields Hf]; [apply split_sep_nonempty|].
    pose proof (_remove_newline_length _ _ Hf) as Hl.
    unfold _parse_stockholm_line_gs. rewrite Hf.
    destruct fields as [|m [|n [|f rest]]]; simpl in Hl; try done; lia.
  - intros Hgr Hlen. unfold _parse_stockholm_line_gr.
    assert (Hne : Py.split line ≠ []).
    { apply startswith_inv in Hgr as [rest ->]. apply all_space_split.
      reflexivity. }
    rewrite (_remove_newline_split _ Hne).
    destruct (Py.split line) as [|m [|n [|f rest]]]; simpl in Hlen;
      try done; lia.
  - intros marker name feature r Hf Hr. unfold _parse_stockholm_line_gs.
    rewrite Hf. run. rewrite Hr. unfold falsy. split.
    + intros He. by rewrite bool_decide_eq_true_2.
    + intros Hne. by rewrite bool_decide_eq_false_2.
Qed.

(** ** The further properties at concrete inputs *)

Lemma reader_reads_data_and_markup_apart_witness :
  _stockholm_to_tabular_msa plain_constructor plain_TabularMSA
    ["#=GS seq1 AC O83071" +:+ LF; "seq1 ACGU" +:+ LF; "seq2 UUUU" +:+ LF;
     "#=GC SS_cons <<>>" +:+ LF]
  = _stockholm_to_tabular_msa plain_constructor plain_TabularMSA
      ["seq1 ACGU" +:+ LF; "#=GS seq1 AC O83071" +:+ LF;
       "#=GC SS_cons <<>>" +:+ LF; "seq2 UUUU" +:+ LF].
Proof.
  destruct (reader_reads_data_and_markup_apart plain_constructor
              plain_TabularMSA
              ["#=GS seq1 AC O83071" +:+ LF; "seq1 ACGU" +:+ LF;
               "seq2 UUUU" +:+ LF; "#=GC SS_cons <<>>" +:+ LF]
              ["seq1 ACGU" +:+ LF; "#=GS seq1 AC O83071" +:+ LF;
               "#=GC SS_cons <<>>" +:+ LF; "seq2 UUUU" +:+ LF])
    as [H _]; [reflexivity | reflexivity | exact H].
Defined.

Lemma reader_skips_other_lines_witness :
  _stockholm_to_tabular_msa plain_constructor plain_TabularMSA
    (["seq1 ACGU" +:+ LF] ++ ("//" +:+ LF) :: ["seq2 UUUU" +:+ LF])
  = _stockholm_to_tabular_msa plain_constructor plain_TabularMSA
      (["seq1 ACGU" +:+ LF] ++ ["seq2 UUUU" +:+ LF]).
Proof.
  apply (reader_skips_other_lines plain_constructor plain_TabularMSA
           ["seq1 ACGU" +:+ LF] ["seq2 UUUU" +:+ LF] ("//" +:+ LF));
    reflexivity.
Defined.

Lemma remove_newline_strips_last_field_witness :
  _remove_newline (Py.split ("#=GC SS_cons <<>>" +:+ LF))
  = Ok ["#=GC"; "SS_cons"; "<<>>"] ∧
  _remove_newline (["#=GF"; "CC"] ++ ["a  b" +:+ LF +:+ LF])
  = Ok (["#=GF"; "CC"] ++ ["a  b"]).
Proof.
  destruct remove_newline_strips_last_field as (_ & Hsplit & Hlast).
  split.
  - apply (Hsplit ("#=GC SS_cons <<>>" +:+ LF)). discriminate.
  - destruct (Hlast ["#=GF"; "CC"] ("a  b" +:+ LF +:+ LF)) as (H & _).
    exact H.
Defined.

Lemma data_line_has_label_witness :
  _parse_stockholm_line_data ("seq1" +:+ LF) [] = Raise IndexError.
Proof.
  destruct (data_line_has_label ("seq1" +:+ LF)) as (H & _); [reflexivity|].
  destruct H as (_ & H); [discriminate|].
  apply H. split; [reflexivity | apply not_elem_of_nil].
Defined.

Lemma data_line_appends_record_witness :
  _parse_stockholm_line_data ("seq2 UUUU ignored" +:+ LF)
    [("seq1", mkSeqData "ACGU" ∅ ∅)]
  = Ok ([("seq1", mkSeqData "ACGU" ∅ ∅)] ++ [("seq2", mkSeqData "UUUU" ∅ ∅)]).
Proof.
  apply (data_line_appends_record ("seq2 UUUU ignored" +:+ LF)
           [("seq1", mkSeqData "ACGU" ∅ ∅)] "seq2" "UUUU" ["ignored"]);
    [reflexivity|].
  intros H. apply list_elem_of_In in H. destruct H as [H|[]]. discriminate H.
Defined.

Lemma gr_stores_new_feature_witness :
  (∃ d', _parse_stockholm_line_gr ("#=GR seq1 SS <<>>" +:+ LF)
           [("seq1", mkSeqData "ACGU" ∅ ∅)] = Ok d' ∧
         od_get "seq1" d'
         = Some (mkSeqData "ACGU" ∅ {[ "SS" := Py.list_of_str "<<>>" ]})) ∧
  _parse_stockholm_line_gr ("#=GR seq1 SS ...." +:+ LF)
    [("seq1", mkSeqData "ACGU" ∅ {[ "SS" := Py.list_of_str "<<>>" ]})]
  = Raise (StockholmFormatError (Duplicate_GR_label "SS" "seq1")).
Proof.
  split.
  - destruct (gr_stores_new_feature ("#=GR seq1 SS <<>>" +:+ LF)
                [("seq1", mkSeqData "ACGU" ∅ ∅)] "#=GR" "seq1" "SS" ["<<>>"]
                (mkSeqData "ACGU" ∅ ∅)) as (_ & H & _);
      [reflexivity | reflexivity |].
    destruct (H eq_refl "<<>>" [] eq_refl) as (d' & Hd' & Hget & _).
    exists d'. split; [exact Hd' | exact Hget].
  - destruct (gr_stores_new_feature ("#=GR seq1 SS ...." +:+ LF)
                [("seq1", mkSeqData "ACGU" ∅
                            {[ "SS" := Py.list_of_str "<<>>" ]})]
                "#=GR" "seq1" "SS" ["...."]
                (mkSeqData "ACGU" ∅ {[ "SS" := Py.list_of_str "<<>>" ]}))
      as (H & _); [reflexivity | reflexivity |].
    apply H. vm_compute. eauto.
Defined.

Lemma rest_of_line_kept_verbatim_witness :
  _parse_stockholm_line_gf
    ("#=GF " +:+ "RA" +:+ " " +:+ "   Deiman BA, Kortlever RM" +:+ LF) ∅
  = Ok {[ "RA" := "   Deiman BA, Kortlever RM" ]}.
Proof.
  destruct (rest_of_line_kept_verbatim "RA" "   Deiman BA, Kortlever RM")
    as [H _]; [reflexivity | reflexivity |].
  rewrite (H ∅). vm_compute. reflexivity.
Defined.

Lemma reader_never_raises_KeyError_witness :
  (StockholmFormatError (Nonexistent_data "seq2") = IndexError ∨
   parse_or_collaborator_error
     (StockholmFormatError (Nonexistent_data "seq2"))) ∧
  ∀ k, StockholmFormatError (Nonexistent_data "seq2") ≠ KeyError k.
Proof.
  apply (reader_never_raises_KeyError plain_constructor plain_TabularMSA
           ["#=GR seq2 SS <<>>" +:+ LF; "seq1 ACGU" +:+ LF]).
  reflexivity.
Defined.

Lemma reader_with_fields_raises_parse_errors_witness :
  parse_or_collaborator_error
    (StockholmFormatError (Multiple_data_lines "seq1")) ∧
  StockholmFormatError (Multiple_data_lines "seq1") ≠ IndexError.
Proof.
  apply (reader_with_fields_raises_parse_errors plain_constructor
           plain_TabularMSA
           ["#=GF ID UPSK" +:+ LF; "seq1 ACGU" +:+ LF; "seq1 UUUU" +:+ LF]).
  - repeat constructor.
  - reflexivity.
Defined.

Lemma data_only_stream_accepted_witness :
  _stockholm_to_tabular_msa plain_constructor plain_TabularMSA
    ["# STOCKHOLM 1.0" +:+ LF; "seq1 ACGU" +:+ LF; "seq2 UUUU" +:+ LF;
     "//" +:+ LF]
  = Ok (mkArgs [("ACGU", None, None); ("UUUU", None, None)] ∅ None
          ["seq1"; "seq2"]).
Proof.
  apply (data_only_stream_accepted plain_constructor plain_TabularMSA
           ["# STOCKHOLM 1.0" +:+ LF; "seq1 ACGU" +:+ LF; "seq2 UUUU" +:+ LF;
            "//" +:+ LF]
           [("ACGU", None, None); ("UUUU", None, None)]).
  - reflexivity.
  - discriminate.
  - change (NoDup ["seq1"; "seq2"]).
    apply NoDup_cons. split; [|apply NoDup_singleton].
    intros H. apply list_elem_of_In in H. destruct H as [H|[]]. discriminate H.
  - repeat constructor.
  - repeat constructor.
Defined.

Lemma gc_lines_make_column_metadata_witness :
  ∃ args,
    collect plain_constructor
      (["seq1 ACGU" +:+ LF] ++ ("#=GC SS_cons <<>>" +:+ LF) :: ["//" +:+ LF])
    = Ok args ∧
    ∃ marker feature tok rest pm,
      Py.split ("#=GC SS_cons <<>>" +:+ LF) = marker :: feature :: tok :: rest ∧
      a_positional_metadata args = Some pm ∧
      pm !! feature = Some (Py.list_of_str tok).
Proof.
  destruct (collect plain_constructor
              (["seq1 ACGU" +:+ LF] ++ ("#=GC SS_cons <<>>" +:+ LF)
               :: ["//" +:+ LF])) as [args|e] eqn:Hc;
    [|vm_compute in Hc; discriminate Hc].
  exists args. split; [reflexivity|].
  destruct (gc_lines_make_column_metadata plain_constructor _ args Hc)
    as [H _].
  apply (H ["seq1 ACGU" +:+ LF] ("#=GC SS_cons <<>>" +:+ LF) ["//" +:+ LF]);
    reflexivity.
Defined.

Lemma first_gs_line_is_the_metadata_witness :
  ∃ args,
    collect plain_constructor
      ([] ++ ("#=GS seq1 AC O83071" +:+ LF)
       :: ["#=GS seq1 DR PDB; 1abc" +:+ LF; "seq1 ACGU" +:+ LF]) = Ok args ∧
    ∃ value rest', ["O83071"] = value :: rest' ∧ "seq1" ∈ a_index args ∧
      ∀ i, a_index args !! i = Some "seq1" →
        ∃ s tok p, a_seqs args !! i = Some s ∧
          call (plain_constructor tok (Some {[ "AC" := value ]}) p) = Ok s.
Proof.
  destruct (collect plain_constructor
              ([] ++ ("#=GS seq1 AC O83071" +:+ LF)
               :: ["#=GS seq1 DR PDB; 1abc" +:+ LF; "seq1 ACGU" +:+ LF]))
    as [args|e] eqn:Hc; [|vm_compute in Hc; discriminate Hc].
  exists args. split; [reflexivity|].
  destruct (first_gs_line_is_the_metadata plain_constructor _ args "seq1" Hc)
    as [_ H].
  apply (H [] ("#=GS seq1 AC O83071" +:+ LF)
           ["#=GS seq1 DR PDB; 1abc" +:+ LF; "seq1 ACGU" +:+ LF] "#=GS" "AC"
           ["O83071"]); [reflexivity | constructor | reflexivity | reflexivity].
Defined.

Lemma gr_lines_make_positional_metadata_witness :
  ∃ args,
    collect plain_constructor
      (["seq1 ACGU" +:+ LF] ++ ("#=GR seq1 SS <<>>" +:+ LF) :: ["//" +:+ LF])
    = Ok args ∧
    ∃ marker k feature tok rest,
      Py.split ("#=GR seq1 SS <<>>" +:+ LF)
      = marker :: k :: feature :: tok :: rest ∧
      k ∈ a_index args ∧
      ∀ i, a_index args !! i = Some k →
        ∃ s sq m p, a_seqs args !! i = Some s ∧
          call (plain_constructor sq m (Some p)) = Ok s ∧
          p !! feature = Some (Py.list_of_str tok).
Proof.
  destruct (collect plain_constructor
              (["seq1 ACGU" +:+ LF] ++ ("#=GR seq1 SS <<>>" +:+ LF)
               :: ["//" +:+ LF])) as [args|e] eqn:Hc;
    [|vm_compute in Hc; discriminate Hc].
  exists args. split; [reflexivity|].
  destruct (gr_lines_make_positional_metadata plain_constructor _ args Hc)
    as [_ H].
  apply (H ["seq1 ACGU" +:+ LF] ("#=GR seq1 SS <<>>" +:+ LF) ["//" +:+ LF]);
    reflexivity.
Defined.

Lemma duplicate_gr_label_never_accepted_witness :
  ∃ e, _stockholm_to_tabular_msa plain_constructor plain_TabularMSA
         (["seq1 ACGU" +:+ LF] ++ ("#=GR seq1 SS <<>>" +:+ LF)
          :: ["seq2 UUUU" +:+ LF] ++ ("#=GR seq1 SS ...." +:+ LF)
          :: ["//" +:+ LF]) = Raise e.
Proof.
  apply (duplicate_gr_label_never_accepted plain_constructor plain_TabularMSA
           ["seq1 ACGU" +:+ LF] ["seq2 UUUU" +:+ LF] ["//" +:+ LF]
           ("#=GR seq1 SS <<>>" +:+ LF) ("#=GR seq1 SS ...." +:+ LF)
           "#=GR" "#=GR" "seq1" "SS" ["<<>>"] ["...."]); reflexivity.
Defined.

Lemma gf_lines_make_alignment_metadata_witness :
  ∃ args,
    collect plain_constructor
      ["#=GF RT The role" +:+ LF; "#=GF RN [1]" +:+ LF;
       "#=GF RT of the" +:+ LF; "seq1 ACGU" +:+ LF;
       "#=GF RT pseudoknot" +:+ LF] = Ok args ∧
    a_metadata args !! "RT" = Some "The role of the pseudoknot" ∧
    a_metadata args !! "RM" = None.
Proof.
  destruct (collect plain_constructor
              ["#=GF RT The role" +:+ LF; "#=GF RN [1]" +:+ LF;
               "#=GF RT of the" +:+ LF; "seq1 ACGU" +:+ LF;
               "#=GF RT pseudoknot" +:+ LF]) as [args|e] eqn:Hc;
    [|vm_compute in Hc; discriminate Hc].
  exists args. split; [reflexivity|]. split.
  - destruct (gf_lines_make_alignment_metadata plain_constructor _ args "RT" Hc)
      as [H _].
    rewrite H. vm_compute. reflexivity.
  - destruct (gf_lines_make_alignment_metadata plain_constructor _ args "RM" Hc)
      as [_ H].
    apply H. vm_compute. reflexivity.
Defined.

Lemma accepted_stream_data_lines_witness :
  ∃ args,
    collect plain_constructor
      ["#=GF ID UPSK" +:+ LF; "seq1 ACGU" +:+ LF; "seq2 UUUU" +:+ LF] = Ok args ∧
    length (a_seqs args) = 2 ∧ length (a_index args) = 2.
Proof.
  destruct (collect plain_constructor
              ["#=GF ID UPSK" +:+ LF; "seq1 ACGU" +:+ LF; "seq2 UUUU" +:+ LF])
    as [args|e] eqn:Hc; [|vm_compute in Hc; discriminate Hc].
  exists args. split; [reflexivity|].
  destruct (accepted_stream_data_lines plain_constructor _ args Hc)
    as (_ & _ & _ & Hs & Hi).
  split; [exact Hs | exact Hi].
Defined.

Lemma short_gs_and_gr_lines_witness :
  _parse_stockholm_line_gs ("#=GS seq9" +:+ LF)
    [("seq1", mkSeqData "ACGU" ∅ ∅)] = Raise IndexError ∧
  _parse_stockholm_line_gs ("#=GS seq1 AC" +:+ LF)
    [("seq1", mkSeqData "ACGU" ∅ ∅)] = Raise IndexError ∧
  _parse_stockholm_line_gs ("#=GS seq1 AC" +:+ LF)
    [("seq1", mkSeqData "ACGU" {[ "DR" := "PDB" ]} ∅)]
  = Ok [("seq1", mkSeqData "ACGU" {[ "DR" := "PDB" ]} ∅)].
Proof.
  split; [|split].
  - destruct (short_gs_and_gr_lines ("#=GS seq9" +:+ LF)
                [("seq1", mkSeqData "ACGU" ∅ ∅)]) as (H & _).
    apply H. vm_compute. lia.
  - destruct (short_gs_and_gr_lines ("#=GS seq1 AC" +:+ LF)
                [("seq1", mkSeqData "ACGU" ∅ ∅)]) as (_ & _ & H).
    destruct (H "#=GS" "seq1" "AC" (mkSeqData "ACGU" ∅ ∅)) as [He _];
      [reflexivity | reflexivity |].
    apply He. reflexivity.
  - destruct (short_gs_and_gr_lines ("#=GS seq1 AC" +:+ LF)
                [("seq1", mkSeqData "ACGU" {[ "DR" := "PDB" ]} ∅)])
      as (_ & _ & H).
    destruct (H "#=GS" "seq1" "AC" (mkSeqData "ACGU" {[ "DR" := "PDB" ]} ∅))
      as [_ Hne]; [reflexivity | reflexivity |].
    apply Hne. simpl. apply insert_non_empty.
Defined.
